(** * Travel_Agent: the weather lookup, its two HTTP endpoints, the agent
      tool and the advice renderer

    A shallow embedding of

      - [src/multi_agent_weather/main.py]: [get_weather_data],
        [get_weather_endpoint], [travel_advice] and the page script's
        [formatMarkdown];
      - [src/multi_agent_weather/weather_agent/agent.py]: [get_weather].

    Python values decoded from JSON are a tagged union, exceptions are an
    explicit result type, and the three collaborators the code calls
    ([requests.get], [Response.json], [client.models.generate_content]) are
    fields of a [World] record.  JavaScript strings are sequences of UTF-16
    code units. *)

From Stdlib Require Import String Ascii List ZArith NArith Bool Lia PrimFloat
  DecimalString.
Import ListNotations.

Set Warnings "-register-all".
#[local] Open Scope string_scope.

(* ===================================================================== *)
(** ** Python runtime                                                     *)
(* ===================================================================== *)

Module Py.

(** A value as [json.loads] builds it: [None], [bool], [int], [float],
    [str], [list], and [dict] with string keys.  A [str] is kept as its
    UTF-8 bytes; a [dict] keeps insertion order and lists each key once. *)
Inductive value : Type :=
| VNone
| VBool (b : bool)
| VInt (z : Z)
| VFloat (f : float)
| VStr (s : string)
| VList (l : list value)
| VDict (d : list (string * value)).

(** The exceptions the modelled code can meet.  [OtherError] stands for
    whatever a collaborator raises (connection failure, JSON decoding
    failure, API failure): its class name and its message. *)
Inductive exn : Type :=
| KeyError (key : value)
| IndexError (msg : string)
| TypeError (msg : string)
| AttributeError (msg : string)
| HTTPException (status_code : Z) (detail : string)
| OtherError (cls msg : string).

(** The result of running a piece of Python: a value or a raised
    exception. *)
Inductive outcome (A : Type) : Type :=
| Returns (a : A)
| Raises (e : exn).

Arguments Returns {A} a.
Arguments Raises {A} e.

Definition bind {A B : Type} (c : outcome A) (k : A -> outcome B) : outcome B :=
  match c with
  | Returns a => k a
  | Raises e => Raises e
  end.

(** [try: c  except Exception as e: h e] *)
Definition try_except {A : Type} (c : outcome A) (h : exn -> outcome A)
  : outcome A :=
  match c with
  | Returns a => Returns a
  | Raises e => h e
  end.

Declare Scope py_scope.
Delimit Scope py_scope with py.
Notation "x <- c ;; k" := (bind c (fun x => k))
  (at level 61, c at next level, right associativity) : py_scope.

(** What the interpreter itself supplies and the embedding leaves open:
    [repr] of a float (shortest digits that round-trip) and [repr] of a
    string (quoting and escaping). *)
Class Runtime : Type := {
  float_repr : float -> string;
  str_repr : string -> string
}.

(** *** Strings *)

Definition nl : string := String (ascii_of_nat 10) EmptyString.

Fixpoint join (sep : string) (l : list string) : string :=
  match l with
  | [] => EmptyString
  | [s] => s
  | s :: l' => s ++ sep ++ join sep l'
  end.

(** [needle in hay] for two strings. *)
Fixpoint str_contains (needle hay : string) : bool :=
  prefix needle hay ||
  match hay with
  | EmptyString => false
  | String _ hay' => str_contains needle hay'
  end.

(** [s.replace(old, new)] for a non-empty [old]: occurrences are found left
    to right and do not overlap.  [skip] counts the bytes of a matched
    occurrence still to be passed over. *)
Fixpoint replace_from (old new : string) (skip : nat) (s : string) : string :=
  match s with
  | EmptyString => EmptyString
  | String c s' =>
      match skip with
      | S k => replace_from old new k s'
      | O =>
          if prefix old s
          then new ++ replace_from old new (String.length old - 1) s'
          else String c (replace_from old new 0 s')
      end
  end.

Definition str_replace (old new s : string) : string :=
  replace_from old new 0 s.

(** Every space replaced by [%20], byte by byte. *)
Fixpoint encode_spaces (s : string) : string :=
  match s with
  | EmptyString => EmptyString
  | String c s' =>
      if Ascii.eqb c " " then "%20" ++ encode_spaces s'
      else String c (encode_spaces s')
  end.

(** A continuation byte of UTF-8, [10xxxxxx]. *)
Definition utf8_cont (c : ascii) : bool :=
  let n := nat_of_ascii c in (128 <=? n)%nat && (n <? 192)%nat.

(** The code points of a string, each as the string of its bytes. *)
Fixpoint utf8_chars (s : string) : list string :=
  match s with
  | EmptyString => []
  | String c s' =>
      match utf8_chars s' with
      | [] => [String c EmptyString]
      | ch :: rest =>
          match ch with
          | String c' _ =>
              if utf8_cont c' then String c ch :: rest
              else String c EmptyString :: ch :: rest
          | EmptyString => String c EmptyString :: rest
          end
      end
  end.

Definition dec (z : Z) : string := NilZero.string_of_int (Z.to_int z).

(** *** Values *)

Definition dict_lookup (k : string) (d : list (string * value)) : option value :=
  match find (fun kv => String.eqb (fst kv) k) d with
  | Some kv => Some (snd kv)
  | None => None
  end.

Definition is_str (k : string) (v : value) : bool :=
  match v with
  | VStr s => String.eqb s k
  | _ => false
  end.

(** [bool(v)] *)
Definition truthy (v : value) : bool :=
  match v with
  | VNone => false
  | VBool b => b
  | VInt z => negb (z =? 0)%Z
  | VFloat f => negb (PrimFloat.eqb f 0%float)
  | VStr s => negb (String.eqb s EmptyString)
  | VList l => match l with [] => false | _ => true end
  | VDict d => match d with [] => false | _ => true end
  end.

Definition type_name (v : value) : string :=
  match v with
  | VNone => "NoneType"
  | VBool _ => "bool"
  | VInt _ => "int"
  | VFloat _ => "float"
  | VStr _ => "str"
  | VList _ => "list"
  | VDict _ => "dict"
  end.

(** [seq[i]] on a sequence of length [len]: negative indices count from the
    end. *)
Definition seq_index {A : Type} (l : list A) (i : Z) : option A :=
  let len := Z.of_nat (List.length l) in
  if (0 <=? i)%Z then nth_error l (Z.to_nat i)
  else if (0 <=? len + i)%Z then nth_error l (Z.to_nat (len + i))
  else None.

(** [v.get(k, default)] *)
Definition py_get (v : value) (k : string) (default : value) : outcome value :=
  match v with
  | VDict d =>
      match dict_lookup k d with
      | Some x => Returns x
      | None => Returns default
      end
  | _ => Raises (AttributeError
           ("'" ++ type_name v ++ "' object has no attribute 'get'"))
  end.

(** [v[k]] for a string or integer subscript [k]. *)
Definition py_getitem (v k : value) : outcome value :=
  match v, k with
  | VDict d, VStr s =>
      match dict_lookup s d with
      | Some x => Returns x
      | None => Raises (KeyError k)
      end
  | VDict _, _ => Raises (KeyError k)
  | VList l, VInt i =>
      match seq_index l i with
      | Some x => Returns x
      | None => Raises (IndexError "list index out of range")
      end
  | VList _, _ =>
      Raises (TypeError ("list indices must be integers or slices, not "
                         ++ type_name k))
  | VStr s, VInt i =>
      match seq_index (utf8_chars s) i with
      | Some ch => Returns (VStr ch)
      | None => Raises (IndexError "string index out of range")
      end
  | VStr _, _ =>
      Raises (TypeError ("string indices must be integers, not '"
                         ++ type_name k ++ "'"))
  | _, _ =>
      Raises (TypeError ("'" ++ type_name v ++ "' object is not subscriptable"))
  end.

(** [k in v] for a string [k]. *)
Definition py_in (k : string) (v : value) : outcome bool :=
  match v with
  | VDict d =>
      Returns (match dict_lookup k d with Some _ => true | None => false end)
  | VList l => Returns (existsb (is_str k) l)
  | VStr s => Returns (str_contains k s)
  | _ => Raises (TypeError
           ("argument of type '" ++ type_name v ++ "' is not iterable"))
  end.

Section WithRuntime.
Context {RT : Runtime}.

(** [repr(v)] *)
Fixpoint py_repr (v : value) : string :=
  match v with
  | VNone => "None"
  | VBool true => "True"
  | VBool false => "False"
  | VInt z => dec z
  | VFloat f => float_repr f
  | VStr s => str_repr s
  | VList l => "[" ++ join ", " (map py_repr l) ++ "]"
  | VDict d =>
      "{" ++ join ", "
               (map (fun kv => match kv with
                               | (k, x) => str_repr k ++ ": " ++ py_repr x
                               end) d)
          ++ "}"
  end.

(** [str(v)], which is also what an f-string field [{v}] inserts. *)
Definition py_str (v : value) : string :=
  match v with
  | VStr s => s
  | _ => py_repr v
  end.

(** [str(e)] for an exception. *)
Definition str_exn (e : exn) : string :=
  match e with
  | KeyError k => py_repr k
  | IndexError m => m
  | TypeError m => m
  | AttributeError m => m
  | HTTPException s d => dec s ++ ": " ++ d
  | OtherError _ m => m
  end.

End WithRuntime.

End Py.

Import Py.
#[local] Open Scope py_scope.

(* ===================================================================== *)
(** ** Collaborators                                                      *)
(* ===================================================================== *)

(** What [requests.get(url)] hands back when it does not raise: the status
    line's code and the result of calling [.json()] on the body. *)
Record Response : Type := {
  status_code : Z;
  json : outcome value
}.

(** What [client.models.generate_content] hands back: its [.text]
    ([None] or a [str]). *)
Record GenerateContentResponse : Type := {
  text : value
}.

(** One state of the outside world: the reply to every GET by URL, and the
    reply of the generative model by model name and prompt. *)
Record World : Type := {
  requests_get : string -> outcome Response;
  generate_content : string -> string -> outcome GenerateContentResponse
}.

(** [requests.get(url).json()] *)
Definition get_json (W : World) (url : string) : outcome value :=
  r <- requests_get W url ;; json r.

(** What the framework's JSON rendering accepts: a value with no [NaN] and
    no infinity in it ([json.dumps] with [allow_nan=False]).  Strings, kept
    as their UTF-8 bytes, always render. *)
Fixpoint json_compliant (v : value) : bool :=
  match v with
  | VFloat f => PrimFloat.is_finite f
  | VList l => forallb json_compliant l
  | VDict d =>
      forallb (fun kv => match kv with (_, x) => json_compliant x end) d
  | _ => true
  end.

(** The reply to a request that reached a handler. *)
Record HttpReply : Type := {
  status : Z;
  body : value
}.

(** The server framework around a handler: a returned value is rendered
    as the body of a 200, unless the rendering fails, which is a plain
    500; an [HTTPException] is its status with its detail under
    ["detail"]; any other exception is a plain 500. *)
Definition serve (o : outcome value) : HttpReply :=
  match o with
  | Returns v =>
      if json_compliant v then {| status := 200; body := v |}
      else {| status := 500; body := VStr "Internal Server Error" |}
  | Raises (HTTPException s d) =>
      {| status := s; body := VDict [("detail", VStr d)] |}
  | Raises _ => {| status := 500; body := VStr "Internal Server Error" |}
  end.

(** The values the route [/weather/{city}] binds to [city]: one path
    segment, not empty and without a slash.  A request whose path has no
    such segment never reaches [get_weather_endpoint]. *)
Definition path_param (city : string) : bool :=
  negb (String.eqb city EmptyString) && negb (str_contains "/" city).

(* ===================================================================== *)
(** ** main.py                                                            *)
(* ===================================================================== *)

Section Main.
Context {RT : Runtime}.

Record TravelRequest : Type := {
  destination : string
}.

Definition geo_url (name : string) : string :=
  "https://geocoding-api.open-meteo.com/v1/search?name=" ++ name
  ++ "&count=1&language=en&format=json".

Definition weather_url (lat lon : value) : string :=
  "https://api.open-meteo.com/v1/forecast?latitude=" ++ py_str lat
  ++ "&longitude=" ++ py_str lon
  ++ "&daily=temperature_2m_max,temperature_2m_min,precipitation_probability_max&timezone=auto".

(** The body of the [try] in [get_weather_data]; the two [print] calls
    leave the result alone and are dropped. *)
Definition get_weather_data_body (W : World) (city_name : string)
  : outcome value :=
  let city_quoted := str_replace " " "%20" city_name in
  geo_res <- get_json W (geo_url city_quoted) ;;
  found <- py_get geo_res "results" VNone ;;
  if negb (truthy found) then Returns VNone else
  results <- py_getitem geo_res (VStr "results") ;;
  location <- py_getitem results (VInt 0) ;;
  lat <- py_getitem location (VStr "latitude") ;;
  lon <- py_getitem location (VStr "longitude") ;;
  weather_res <- get_json W (weather_url lat lon) ;;
  has_daily <- py_in "daily" weather_res ;;
  if negb has_daily then Returns VNone else
  daily <- py_getitem weather_res (VStr "daily") ;;
  maxs <- py_getitem daily (VStr "temperature_2m_max") ;;
  temp_max <- py_getitem maxs (VInt 0) ;;
  daily <- py_getitem weather_res (VStr "daily") ;;
  mins <- py_getitem daily (VStr "temperature_2m_min") ;;
  temp_min <- py_getitem mins (VInt 0) ;;
  daily <- py_getitem weather_res (VStr "daily") ;;
  probs <- py_getitem daily (VStr "precipitation_probability_max") ;;
  precip_prob <- py_getitem probs (VInt 0) ;;
  country <- py_get location "country" (VStr EmptyString) ;;
  Returns (VDict [("city", VStr city_name);
                  ("country", country);
                  ("temp_max", temp_max);
                  ("temp_min", temp_min);
                  ("precip_prob", precip_prob)]).

Definition get_weather_data (W : World) (city_name : string) : outcome value :=
  try_except (get_weather_data_body W city_name) (fun _ => Returns VNone).

Definition get_weather_endpoint (W : World) (city : string) : outcome value :=
  data <- get_weather_data W city ;;
  if negb (truthy data)
  then Raises (HTTPException 404 "City not found")
  else Returns data.

Definition weather_info (weather_data : value) : outcome string :=
  city <- py_getitem weather_data (VStr "city") ;;
  country <- py_getitem weather_data (VStr "country") ;;
  temp_max <- py_getitem weather_data (VStr "temp_max") ;;
  temp_min <- py_getitem weather_data (VStr "temp_min") ;;
  precip_prob <- py_getitem weather_data (VStr "precip_prob") ;;
  Returns ("Destination: " ++ py_str city ++ ", " ++ py_str country ++ ". "
           ++ "Forecast: Max " ++ py_str temp_max ++ "¬∞C, Min "
           ++ py_str temp_min ++ "¬∞C, "
           ++ "Precipitation Probability: " ++ py_str precip_prob ++ "%.").

Definition advice_prompt (info : string) : string :=
  "Act as a Travel Advisor. Based on the following destination and weather info, "
  ++ "provide clothing and travel recommendations. Do NOT use asterisks for bolding. "
  ++ "Instead, put the topic at the start of the line, followed by a relevant emoji, "
  ++ "then the description. Use clear headings (using ###):" ++ nl ++ nl ++ info.

Definition gemini_model : string := "gemini-2.5-flash".

Definition travel_advice (W : World) (request : TravelRequest) : outcome value :=
  weather_data <- get_weather_data W (destination request) ;;
  if negb (truthy weather_data)
  then Raises (HTTPException 404 "Weather data not found for destination")
  else
  info <- weather_info weather_data ;;
  let prompt := advice_prompt info in
  advice <- try_except
              (response <- generate_content W gemini_model prompt ;;
               Returns (text response))
              (fun e => Raises (HTTPException 500
                                  ("AI Agent error: " ++ str_exn e))) ;;
  Returns (VDict [("advice", advice); ("weather", weather_data)]).

End Main.

(* ===================================================================== *)
(** ** weather_agent/agent.py                                             *)
(* ===================================================================== *)

Section Agent.
Context {RT : Runtime}.

(** The body of the [try] in [get_weather].  The geocoding URL is built
    from [city] as it comes; [date] is not read. *)
Definition get_weather_body (W : World) (city date : string) : outcome string :=
  geo_res <- get_json W (geo_url city) ;;
  found <- py_get geo_res "results" VNone ;;
  if negb (truthy found)
  then Returns ("Could not find location for " ++ city) else
  results <- py_getitem geo_res (VStr "results") ;;
  location <- py_getitem results (VInt 0) ;;
  lat <- py_getitem location (VStr "latitude") ;;
  lon <- py_getitem location (VStr "longitude") ;;
  weather_res <- get_json W (weather_url lat lon) ;;
  has_daily <- py_in "daily" weather_res ;;
  if negb has_daily then Returns "Could not fetch weather data." else
  daily <- py_getitem weather_res (VStr "daily") ;;
  maxs <- py_getitem daily (VStr "temperature_2m_max") ;;
  temp_max <- py_getitem maxs (VInt 0) ;;
  daily <- py_getitem weather_res (VStr "daily") ;;
  mins <- py_getitem daily (VStr "temperature_2m_min") ;;
  temp_min <- py_getitem mins (VInt 0) ;;
  daily <- py_getitem weather_res (VStr "daily") ;;
  probs <- py_getitem daily (VStr "precipitation_probability_max") ;;
  precip_prob <- py_getitem probs (VInt 0) ;;
  country <- py_get location "country" (VStr EmptyString) ;;
  Returns ("Weather in " ++ city ++ " (" ++ py_str country ++ "): Max "
           ++ py_str temp_max ++ "°C, Min " ++ py_str temp_min
           ++ "°C, Rain chance: " ++ py_str precip_prob ++ "%.").

Definition get_weather (W : World) (city date : string) : outcome string :=
  try_except (get_weather_body W city date)
             (fun e => Returns ("Error fetching weather: " ++ str_exn e)).

End Agent.

(** *** The clean-up of the environment at import

    [os.environ] as a partial map from names to values. *)
Definition environ : Type := string -> option string.

(** [k in os.environ] *)
Definition env_in (k : string) (env : environ) : bool :=
  match env k with
  | Some _ => true
  | None => false
  end.

(** [del os.environ[k]] *)
Definition env_del (k : string) (env : environ) : outcome environ :=
  match env k with
  | Some _ => Returns (fun k' => if String.eqb k' k then None else env k')
  | None => Raises (KeyError (VStr k))
  end.

(** [if k in os.environ: del os.environ[k]] *)
Definition del_if_set (k : string) (env : environ) : outcome environ :=
  if env_in k env then env_del k env else Returns env.

Definition vertex_keys : list string :=
  ["GOOGLE_CLOUD_PROJECT"; "GOOGLE_CLOUD_LOCATION"; "GOOGLE_CLOUD_REGION"].

(** The three guarded deletions that follow [load_dotenv()]. *)
Definition remove_vertex_config (env : environ) : outcome environ :=
  env <- del_if_set "GOOGLE_CLOUD_PROJECT" env ;;
  env <- del_if_set "GOOGLE_CLOUD_LOCATION" env ;;
  del_if_set "GOOGLE_CLOUD_REGION" env.

(* ===================================================================== *)
(** ** The script of the page served by [read_root]                       *)
(* ===================================================================== *)

Module Js.
#[local] Open Scope list_scope.

(** A JavaScript string: its UTF-16 code units. *)
Definition jsstring : Type := list N.

(** An ASCII literal of the script. *)
Definition lit (s : string) : jsstring :=
  map N_of_ascii (list_ascii_of_string s).

(** The one-unit string the script writes ["\n"]. *)
Definition newline : jsstring := [10%N].

(** [s.startsWith(p)] *)
Fixpoint startsWith (s p : jsstring) : bool :=
  match p with
  | [] => true
  | c :: p' =>
      match s with
      | [] => false
      | d :: s' => N.eqb c d && startsWith s' p'
      end
  end.

(** [s.includes(p)] *)
Fixpoint includes (s p : jsstring) : bool :=
  startsWith s p ||
  match s with
  | [] => false
  | _ :: s' => includes s' p
  end.

(** [s.substring(n)] *)
Definition substring (s : jsstring) (n : nat) : jsstring := skipn n s.

(** WhiteSpace and LineTerminator code units, the ones [trim] removes. *)
Definition is_space (c : N) : bool :=
  existsb (N.eqb c)
    [9; 10; 11; 12; 13; 32; 160; 5760; 8232; 8233; 8239; 8287; 12288; 65279]%N
  || ((8192 <=? c) && (c <=? 8202))%N.

Fixpoint trimStart (s : jsstring) : jsstring :=
  match s with
  | [] => []
  | c :: s' => if is_space c then trimStart s' else s
  end.

(** [s.trim()] *)
Definition trim (s : jsstring) : jsstring :=
  rev (trimStart (rev (trimStart s))).

(** [s.split(sep)] for a non-empty [sep]: separators are found left to
    right and do not overlap.  [skip] counts the units of a matched
    separator still to be passed over, [cur] holds the current piece
    backwards. *)
Fixpoint split_from (sep : jsstring) (skip : nat) (cur s : jsstring)
  : list jsstring :=
  match s with
  | [] => [rev cur]
  | c :: s' =>
      match skip with
      | S k => split_from sep k cur s'
      | O =>
          if startsWith s sep
          then rev cur :: split_from sep (List.length sep - 1) [] s'
          else split_from sep 0 (c :: cur) s'
      end
  end.

Definition split (s sep : jsstring) : list jsstring := split_from sep 0 [] s.

Definition strong_open : jsstring := lit "<strong>".
Definition strong_close : jsstring := lit "</strong>".

(** One turn of the inner [for]: append [parts[i]], then, unless [i] is
    the last index, the tag chosen by the parity of [i]. *)
Definition bold_step (parts : list jsstring) (boldLine : jsstring) (i : nat)
  : jsstring :=
  let boldLine := boldLine ++ nth i parts [] in
  if (i <? List.length parts - 1)%nat
  then boldLine ++ (if Nat.even i then strong_open else strong_close)
  else boldLine.

(** [for (let i = 0; i < parts.length; i++) ...] starting from the empty
    string. *)
Definition bold_line (parts : list jsstring) : jsstring :=
  fold_left (bold_step parts) (seq 0 (List.length parts)) [].

(** What one turn of the outer [for] appends to [html]. *)
Definition format_line (line : jsstring) : jsstring :=
  if startsWith line (lit "### ")
  then lit "<h3>" ++ substring line 4 ++ lit "</h3>"
  else if startsWith (trim line) (lit "* ")
  then lit "<li>" ++ substring (trim line) 2 ++ lit "</li>"
  else if startsWith (trim line) (lit "- ")
  then lit "<li>" ++ substring (trim line) 2 ++ lit "</li>"
  else if includes line (lit "**")
  then bold_line (split line (lit "**")) ++ lit "<br>"
  else if match trim line with [] => true | _ => false end
  then lit "<p></p>"
  else line ++ lit "<br>".

Definition formatMarkdown (text : jsstring) : jsstring :=
  match text with
  | [] => []
  | _ =>
      fold_left (fun html line => html ++ format_line line)
                (split text newline) []
  end.

(** The rule of the bold branch said directly: the pieces in order, and
    after the piece of index [i], when another piece follows, an opening
    tag for even [i] and a closing tag for odd [i]. *)
Fixpoint alternate_tags (i : nat) (parts : list jsstring) : jsstring :=
  match parts with
  | [] => []
  | [p] => p
  | p :: rest =>
      p ++ (if Nat.even i then strong_open else strong_close)
        ++ alternate_tags (S i) rest
  end.

(** How many positions of [s] start an occurrence of [p]. *)
Fixpoint occurrences (p s : jsstring) : nat :=
  (if startsWith s p then 1 else 0) +
  match s with
  | [] => 0
  | _ :: s' => occurrences p s'
  end.

(** [parts.join(sep)] *)
Fixpoint join (sep : jsstring) (parts : list jsstring) : jsstring :=
  match parts with
  | [] => []
  | [p] => p
  | p :: rest => p ++ sep ++ join sep rest
  end.

(** Every unit of [s] is one that [trim] removes. *)
Definition blank (s : jsstring) : bool := forallb is_space s.

Definition clothing_note : jsstring :=
  lit "### Clothing" ++ newline ++ lit "* Bring a coat" ++ newline
  ++ lit "**Note:** stay warm".

End Js.

(** *** [getAdvice] and the page it acts on *)

Module Page.
#[local] Open Scope list_scope.

(** A JavaScript value as [JSON.parse] builds it or a property read gives
    it; the keys of an object are listed once each. *)
Inductive jsvalue : Type :=
| JUndefined
| JNull
| JBool (b : bool)
| JNum (x : float)
| JStr (s : Js.jsstring)
| JArr (l : list jsvalue)
| JObj (o : list (Js.jsstring * jsvalue)).

(** The end of a piece of script: a value, or a thrown error (a rejected
    promise under [await]) with its message. *)
Inductive completion (A : Type) : Type :=
| Normal (a : A)
| Throw (message : Js.jsstring).

Arguments Normal {A} a.
Arguments Throw {A} message.

Definition and_then {A B : Type} (c : completion A) (k : A -> completion B)
  : completion B :=
  match c with
  | Normal a => k a
  | Throw m => Throw m
  end.

Declare Scope js_scope.
Delimit Scope js_scope with js.
Notation "'let*' x ':=' c 'in' k" := (and_then c (fun x => k))
  (at level 10, x name, c at level 100, k at level 200) : js_scope.
#[local] Open Scope js_scope.

(** What the engine supplies and the embedding leaves open: the decimal
    form of a number. *)
Class Engine : Type := {
  number_to_string : float -> Js.jsstring
}.

Fixpoint units_eqb (a b : Js.jsstring) : bool :=
  match a, b with
  | [], [] => true
  | x :: a', y :: b' => N.eqb x y && units_eqb a' b'
  | _, _ => false
  end.

(** ToBoolean *)
Definition truthy (v : jsvalue) : bool :=
  match v with
  | JUndefined => false
  | JNull => false
  | JBool b => b
  | JNum x => negb (PrimFloat.eqb x 0%float || negb (PrimFloat.eqb x x))
  | JStr s => match s with [] => false | _ => true end
  | JArr _ => true
  | JObj _ => true
  end.

(** [v.k] for a key [k] that no prototype defines: reading from
    [undefined] or [null] throws, an object gives its own property, and
    every other value gives [undefined]. *)
Definition get (v : jsvalue) (k : Js.jsstring) : completion jsvalue :=
  match v with
  | JUndefined =>
      Throw (Js.lit "Cannot read properties of undefined (reading '"
             ++ k ++ Js.lit "')")
  | JNull =>
      Throw (Js.lit "Cannot read properties of null (reading '"
             ++ k ++ Js.lit "')")
  | JObj o =>
      match find (fun kv => units_eqb (fst kv) k) o with
      | Some kv => Normal (snd kv)
      | None => Normal JUndefined
      end
  | _ => Normal JUndefined
  end.

(** [o] has a property of its own under the key [k]. *)
Definition has_own (o : list (Js.jsstring * jsvalue)) (k : Js.jsstring) : bool :=
  existsb (fun kv => units_eqb (fst kv) k) o.

Section WithEngine.
Context {E : Engine}.

(** ToString, as string concatenation and template literals apply it.
    A parsed object is converted by the inherited [toString], unless a key
    of its own hides it: an own ["toString"] is data, not a function, and
    the conversion throws.  An array joins the strings of its elements,
    [null] and [undefined] counting as empty. *)
Fixpoint to_string (v : jsvalue) : completion Js.jsstring :=
  match v with
  | JUndefined => Normal (Js.lit "undefined")
  | JNull => Normal (Js.lit "null")
  | JBool true => Normal (Js.lit "true")
  | JBool false => Normal (Js.lit "false")
  | JNum x => Normal (number_to_string x)
  | JStr s => Normal s
  | JArr l =>
      let* parts :=
        (fix elements (l : list jsvalue) : completion (list Js.jsstring) :=
           match l with
           | [] => Normal []
           | x :: rest =>
               let* s := match x with
                         | JUndefined => Normal []
                         | JNull => Normal []
                         | _ => to_string x
                         end in
               let* more := elements rest in
               Normal (s :: more)
           end) l in
      Normal (Js.join (Js.lit ",") parts)
  | JObj o =>
      if has_own o (Js.lit "toString")
      then Throw (Js.lit "Cannot convert object to primitive value")
      else Normal (Js.lit "[object Object]")
  end.

(** [formatMarkdown(text)] for any value: a falsy one gives the empty
    string, a string is rendered, and any other value has no [split] to
    call. *)
Definition formatMarkdown_of (text : jsvalue) : completion Js.jsstring :=
  if negb (truthy text) then Normal []
  else match text with
       | JStr s => Normal (Js.formatMarkdown s)
       | _ => Throw (Js.lit "text.split is not a function")
       end.

(** What [resultDiv] shows: the markup last assigned to [innerHTML], or
    the text last assigned to [innerText]. *)
Inductive content : Type :=
| InnerHTML (html : Js.jsstring)
| InnerText (text : Js.jsstring).

(** The three elements the script touches. *)
Record page : Type := {
  destination_value : Js.jsstring;
  btn_disabled : bool;
  btn_innerText : Js.jsstring;
  result_display : Js.jsstring;
  result : content
}.

(** What [fetch] resolves to: the result of [response.json()]. *)
Record response : Type := {
  json : completion jsvalue
}.

(** The server as the page sees it: the outcome of the POST to
    [/travel_advice] for a destination. *)
Definition server : Type := Js.jsstring -> completion response.

(** The double quote of the markup. *)
Definition q : Js.jsstring := [34%N].

Definition loading : Js.jsstring :=
  Js.lit "<div class=" ++ q ++ Js.lit "loading" ++ q ++ Js.lit ">"
  ++ Js.lit "<div class=" ++ q ++ Js.lit "spinner" ++ q ++ Js.lit "></div>"
  ++ Js.lit "<span>" ++ [8218; 250; 174]%N
  ++ Js.lit " Crafting your perfect trip...</span></div>".

Definition weather_item (label : string) (value : Js.jsstring) : Js.jsstring :=
  Js.lit "<div class=" ++ q ++ Js.lit "weather-item" ++ q ++ Js.lit ">"
  ++ Js.lit "<span class=" ++ q ++ Js.lit "weather-label" ++ q ++ Js.lit ">"
  ++ Js.lit label ++ Js.lit "</span>"
  ++ Js.lit "<span class=" ++ q ++ Js.lit "weather-value" ++ q ++ Js.lit ">"
  ++ value ++ Js.lit "</span></div>".

(** The five substitutions of the header. *)
Definition header_keys : list Js.jsstring :=
  [Js.lit "city"; Js.lit "country"; Js.lit "temp_max"; Js.lit "temp_min";
   Js.lit "precip_prob"].

(** The template literals assigned to [header], each substitution read
    and converted in its turn. *)
Definition header_of (w : jsvalue) : completion Js.jsstring :=
  let* city := get w (Js.lit "city") in
  let* city := to_string city in
  let* country := get w (Js.lit "country") in
  let* country := to_string country in
  let* temp_max := get w (Js.lit "temp_max") in
  let* temp_max := to_string temp_max in
  let* temp_min := get w (Js.lit "temp_min") in
  let* temp_min := to_string temp_min in
  let* precip_prob := get w (Js.lit "precip_prob") in
  let* precip_prob := to_string precip_prob in
  Normal
    (Js.lit "<div class=" ++ q ++ Js.lit "weather-badge" ++ q ++ Js.lit ">"
     ++ [63743; 252; 236; 231]%N ++ Js.lit " " ++ city
     ++ Js.lit ", " ++ country ++ Js.lit "</div>" ++ Js.newline
     ++ Js.lit "<div class=" ++ q ++ Js.lit "weather-summary" ++ q ++ Js.lit ">"
     ++ weather_item "Max" (temp_max ++ [172; 8734]%N ++ Js.lit "C")
     ++ weather_item "Min" (temp_min ++ [172; 8734]%N ++ Js.lit "C")
     ++ weather_item "Rain" (precip_prob ++ Js.lit "%")
     ++ Js.lit "</div>").

(** The body of the [try]: what it assigns to [resultDiv], unless it
    throws. *)
Definition advice_content (S : server) (dest : Js.jsstring)
  : completion content :=
  let* response := S dest in
  let* data := json response in
  let* advice := get data (Js.lit "advice") in
  if truthy advice then
    let* weather := get data (Js.lit "weather") in
    let* header :=
      (if truthy weather
       then let* w := get data (Js.lit "weather") in header_of w
       else Normal []) in
    let* text := get data (Js.lit "advice") in
    let* html := formatMarkdown_of text in
    Normal (InnerHTML
              (header
               ++ Js.lit "<div style=" ++ q ++ Js.lit "margin-top:20px" ++ q
               ++ Js.lit ">" ++ html ++ Js.lit "</div>"))
  else
    let* detail := get data (Js.lit "detail") in
    let* shown := to_string (if truthy detail then detail
                             else JStr (Js.lit "Could not get advice")) in
    Normal (InnerText (Js.lit "Error: " ++ shown)).

(** The page while the request is awaited. *)
Definition waiting (p : page) : page :=
  {| destination_value := destination_value p;
     btn_disabled := true;
     btn_innerText := Js.lit "Planning...";
     result_display := Js.lit "block";
     result := InnerHTML loading |}.

(** The page once [getAdvice] has run to its end against server [S]. *)
Definition getAdvice (S : server) (p : page) : page :=
  let dest := destination_value p in
  if negb (truthy (JStr dest)) then p
  else
    let p := waiting p in
    let shown :=
      match advice_content S dest with
      | Normal c => c
      | Throw _ => InnerText (Js.lit "Error connecting to server")
      end in
    {| destination_value := destination_value p;
       btn_disabled := false;
       btn_innerText := Js.lit "Generate My Plan";
       result_display := result_display p;
       result := shown |}.

End WithEngine.

End Page.

(* ===================================================================== *)
(** ** What a completed lookup has read                                   *)
(* ===================================================================== *)

Section Lookup.
Context {RT : Runtime}.

(** The geocoding stage ended well: the reply to the request for [name]
    decoded to an object whose ["results"] is truthy, and element 0 of it
    is [location], with coordinates [lat] and [lon]. *)
Definition located (W : World) (name : string) (location lat lon : value)
  : Prop :=
  exists geo_res results,
    get_json W (geo_url name) = Returns geo_res /\
    py_get geo_res "results" VNone = Returns results /\
    truthy results = true /\
    py_getitem results (VInt 0) = Returns location /\
    py_getitem location (VStr "latitude") = Returns lat /\
    py_getitem location (VStr "longitude") = Returns lon.

(** Element 0 of the array [key] of the ["daily"] section of a forecast
    reply is [x]. *)
Definition daily_first (weather_res : value) (key : string) (x : value)
  : Prop :=
  exists daily arr,
    py_getitem weather_res (VStr "daily") = Returns daily /\
    py_getitem daily (VStr key) = Returns arr /\
    py_getitem arr (VInt 0) = Returns x.

(** Both stages ended well. *)
Definition fetched (W : World) (name : string)
  (location weather_res temp_max temp_min precip_prob : value) : Prop :=
  exists lat lon,
    located W name location lat lon /\
    get_json W (weather_url lat lon) = Returns weather_res /\
    py_in "daily" weather_res = Returns true /\
    daily_first weather_res "temperature_2m_max" temp_max /\
    daily_first weather_res "temperature_2m_min" temp_min /\
    daily_first weather_res "precipitation_probability_max" precip_prob.

(** The three arrays read from the ["daily"] section. *)
Definition daily_keys : list string :=
  ["temperature_2m_max"; "temperature_2m_min"; "precipitation_probability_max"].

(** [location.get] of ["country"], defaulting to the empty string, for a
    [location] that is a [dict]. *)
Definition country_of (location : value) : value :=
  match location with
  | VDict d =>
      match dict_lookup "country" d with
      | Some c => c
      | None => VStr EmptyString
      end
  | _ => VStr EmptyString
  end.

(** The [dict] that [get_weather_data] returns on success. *)
Definition summary (city : string) (country temp_max temp_min precip_prob : value)
  : value :=
  VDict [("city", VStr city);
         ("country", country);
         ("temp_max", temp_max);
         ("temp_min", temp_min);
         ("precip_prob", precip_prob)].

(** The sentence that [get_weather] returns on success. *)
Definition sentence (city : string) (country temp_max temp_min precip_prob : value)
  : string :=
  "Weather in " ++ city ++ " (" ++ py_str country ++ "): Max "
  ++ py_str temp_max ++ "°C, Min " ++ py_str temp_min
  ++ "°C, Rain chance: " ++ py_str precip_prob ++ "%.".

(** The 404 of [get_weather_endpoint] as the client receives it. *)
Definition city_not_found : HttpReply :=
  {| status := 404; body := VDict [("detail", VStr "City not found")] |}.



End Lookup.

(* ===================================================================== *)
(** ** Worked worlds                                                      *)
(* ===================================================================== *)

Module Sample.

(** A runtime for the worlds below.  Their values hold strings without
    quotes or escapes, for which [repr] only adds the quotes; no float of
    theirs is ever formatted. *)
Definition runtime : Runtime := {|
  float_repr := fun _ => "nan";
  str_repr := fun s => "'" ++ s ++ "'"
|}.

Definition reply (code : Z) (j : value) : outcome Response :=
  Returns {| status_code := code; json := Returns j |}.

Definition unreachable : exn :=
  OtherError "ConnectionError" "Max retries exceeded".

(** The world in which the geocoder answers every search with [geo], the
    forecast service every request with [weather], and the model every
    prompt with [gen]. *)
Definition world_of (geo weather : outcome Response)
  (gen : outcome GenerateContentResponse) : World := {|
  requests_get := fun url =>
    if prefix "https://geocoding-api.open-meteo.com/v1/search?" url then geo
    else if prefix "https://api.open-meteo.com/v1/forecast?" url then weather
    else Raises unreachable;
  generate_content := fun _ _ => gen
|}.

Definition paris : value :=
  VDict [("id", VInt 2988507); ("name", VStr "Paris");
         ("latitude", VInt 49); ("longitude", VInt 2);
         ("country_code", VStr "FR"); ("country", VStr "France")].

Definition nowhere : value :=
  VDict [("id", VInt 1); ("name", VStr "Null Island");
         ("latitude", VInt 0); ("longitude", VInt 0)].

Definition results_of (location : value) : value :=
  VDict [("results", VList [location]); ("generationtime_ms", VInt 1)].

Definition forecast_of (maxs mins probs : list value) : value :=
  VDict [("latitude", VInt 49); ("longitude", VInt 2);
         ("timezone", VStr "Europe/Paris");
         ("daily", VDict [("time", VList [VStr "2025-06-01"; VStr "2025-06-02"]);
                          ("temperature_2m_max", VList maxs);
                          ("temperature_2m_min", VList mins);
                          ("precipitation_probability_max", VList probs)])].

Definition mild : value :=
  forecast_of [VInt 21; VInt 24] [VInt 12; VInt 14] [VInt 30; VInt 5].

(** A forecast whose first maximum lies below its first minimum. *)
Definition inverted : value :=
  forecast_of [VFloat 3.5; VInt 24] [VFloat 8.25; VInt 14] [VInt 30; VInt 5].

Definition advice_text : GenerateContentResponse :=
  {| text := VStr "### Clothing" |}.

Definition quota : exn := OtherError "ClientError" "429 RESOURCE_EXHAUSTED".

Definition paris_world : World :=
  world_of (reply 200 (results_of paris)) (reply 200 mild) (Returns advice_text).

Definition inverted_world : World :=
  world_of (reply 200 (results_of paris)) (reply 200 inverted)
           (Returns advice_text).

(** The geocoder's first result carries no ["country"]. *)
Definition nowhere_world : World :=
  world_of (reply 200 (results_of nowhere)) (reply 200 mild)
           (Returns advice_text).




(** The geocoder knows no such place. *)
Definition unknown_world : World :=
  world_of (reply 200 (VDict [("generationtime_ms", VInt 1)])) (reply 200 mild)
           (Returns advice_text).

(** No request gets through. *)
Definition offline_world : World :=
  world_of (Raises unreachable) (Raises unreachable) (Returns advice_text).

(** The forecast service answers with an error object. *)
Definition refused_world : World :=
  world_of (reply 200 (results_of paris))
           (reply 400 (VDict [("error", VBool true);
                              ("reason", VStr "Latitude must be in range")]))
           (Returns advice_text).

(** The forecast holds a daily section with empty arrays. *)
Definition empty_world : World :=
  world_of (reply 200 (results_of paris)) (reply 200 (forecast_of [] [] []))
           (Returns advice_text).

(** The model call fails. *)
Definition quota_world : World :=
  world_of (reply 200 (results_of paris)) (reply 200 mild) (Raises quota).

(** A geocoder reply with the same first result as far as the lookup
    reads it, further fields, and a second result. *)
Definition paris_texas : value :=
  VDict [("id", VInt 4717560); ("name", VStr "Paris");
         ("latitude", VInt 34); ("longitude", VInt (-96));
         ("country", VStr "United States")].

Definition paris_renamed : value :=
  VDict [("name", VStr "Lutetia"); ("population", VInt 2138551);
         ("country", VStr "France"); ("longitude", VInt 2);
         ("latitude", VInt 49)].

Definition crowded_world : World :=
  world_of (reply 200 (VDict [("results", VList [paris_renamed; paris_texas])]))
           (reply 200 mild) (Returns advice_text).

(** An engine for the pages below, none of which formats a number. *)
Definition engine : Page.Engine := {|
  Page.number_to_string := fun _ => Js.lit "NaN"
|}.

Definition blank_page (dest : Js.jsstring) : Page.page := {|
  Page.destination_value := dest;
  Page.btn_disabled := false;
  Page.btn_innerText := Js.lit "Generate My Plan";
  Page.result_display := Js.lit "none";
  Page.result := Page.InnerHTML []
|}.

(** A server that answers every destination with the body [data]. *)
Definition answering (data : Page.jsvalue) : Page.server :=
  fun _ => Page.Normal {| Page.json := Page.Normal data |}.

Definition detail_of (d : string) : Page.jsvalue :=
  Page.JObj [(Js.lit "detail", Page.JStr (Js.lit d))].

(** An object that has a ["toString"] of its own. *)
Definition stringless : Page.jsvalue :=
  Page.JObj [(Js.lit "toString", Page.JNum 1)].

Definition weather_of (country : Page.jsvalue) : Page.jsvalue :=
  Page.JObj [(Js.lit "city", Page.JStr (Js.lit "Paris"));
             (Js.lit "country", country);
             (Js.lit "temp_max", Page.JStr (Js.lit "21"));
             (Js.lit "temp_min", Page.JStr (Js.lit "12"));
             (Js.lit "precip_prob", Page.JStr (Js.lit "30"))].

Definition advice_with (a : string) (country : Page.jsvalue) : Page.jsvalue :=
  Page.JObj [(Js.lit "advice", Page.JStr (Js.lit a));
             (Js.lit "weather", weather_of country)].

End Sample.

(* ===================================================================== *)
(** ** The prompt of [travel_advice]                                      *)
(* ===================================================================== *)

Section Prompt.
Context {RT : Runtime}.

(** The text [weather_info] comes to on the [dict] of a completed
    lookup. *)
Definition summary_info (city : string)
  (country temp_max temp_min precip_prob : value) : string :=
  "Destination: " ++ city ++ ", " ++ py_str country ++ ". "
  ++ "Forecast: Max " ++ py_str temp_max ++ "¬∞C, Min "
  ++ py_str temp_min ++ "¬∞C, "
  ++ "Precipitation Probability: " ++ py_str precip_prob ++ "%.".

(** The 404 of [travel_advice] as the client receives it. *)
Definition weather_not_found : HttpReply :=
  {| status := 404;
     body := VDict [("detail", VStr "Weather data not found for destination")] |}.

(** A world with the GET replies of [W] and another model. *)
Definition with_model (W : World)
  (G : string -> string -> outcome GenerateContentResponse) : World :=
  {| requests_get := requests_get W; generate_content := G |}.

End Prompt.

(* ===================================================================== *)
(** ** Lemmas on the runtime                                              *)
(* ===================================================================== *)

Lemma bind_Returns {A B : Type} (c : outcome A) (k : A -> outcome B) (b : B) :
  bind c k = Returns b -> exists a, c = Returns a /\ k a = Returns b.
Proof.
  destruct c as [a | e]; cbn [bind]; intros H; [eauto | discriminate].
Qed.

Lemma try_except_total {A : Type} (c : outcome A) (h : exn -> A) :
  exists a, try_except c (fun e => Returns (h e)) = Returns a.
Proof.
  destruct c as [a | e]; cbn [try_except]; eauto.
Qed.

Lemma py_getitem_key (v : value) (k : string) (x : value) :
  py_getitem v (VStr k) = Returns x ->
  exists d, v = VDict d /\ dict_lookup k d = Some x.
Proof.
  destruct v; cbn [py_getitem]; try discriminate.
  intros H. destruct (dict_lookup k d) eqn:E; [| discriminate].
  exists d. split; congruence.
Qed.

Lemma py_get_then_getitem (v : value) (k : string) (x : value) :
  py_get v k VNone = Returns x -> truthy x = true ->
  py_getitem v (VStr k) = Returns x.
Proof.
  destruct v; cbn [py_get py_getitem]; try discriminate.
  destruct (dict_lookup k d) eqn:E; intros H T.
  - exact H.
  - injection H as <-. discriminate T.
Qed.

Lemma py_get_country (location : value) (k : string) (x : value) :
  py_getitem location (VStr k) = Returns x ->
  py_get location "country" (VStr EmptyString) = Returns (country_of location).
Proof.
  intros H. apply py_getitem_key in H. destruct H as (d & -> & _).
  cbn [py_get country_of]. destruct (dict_lookup "country" d); reflexivity.
Qed.

Lemma py_getitem_first (l : list value) (x : value) :
  py_getitem (VList l) (VInt 0) = Returns x <-> exists rest, l = x :: rest.
Proof.
  cbn [py_getitem]. unfold seq_index. cbn.
  destruct l as [| y rest]; cbn.
  - split; [intros H; discriminate H | intros (r & H); discriminate H].
  - split.
    + intros H. injection H as ->. eauto.
    + intros (r & H). injection H as -> _. reflexivity.
Qed.

Lemma py_getitem_empty (k : value) :
  forall x, py_getitem (VList []) k <> Returns x.
Proof.
  intros x. destruct k; cbn [py_getitem]; try discriminate.
  unfold seq_index.
  repeat match goal with
         | |- context [if ?b then _ else _] => destruct b
         end;
  try match goal with
      | |- context [nth_error [] ?n] => destruct n
      end; cbn; discriminate.
Qed.

Lemma summary_truthy (c : string) (k a b p : value) :
  truthy (summary c k a b p) = true.
Proof. reflexivity. Qed.

(* ===================================================================== *)
(** ** Tactics                                                            *)
(* ===================================================================== *)

(** Split the leading [bind] of hypothesis [H : bind c k = Returns _] into
    the value of [c] and the rest. *)
Ltac bind_inv H x E :=
  apply bind_Returns in H; destruct H as (x & E & H).

(** Decide the leading [if negb b] of hypothesis [H]. *)
Ltac guard_inv H E :=
  match type of H with
  | (if negb ?b then _ else _) = _ => destruct b eqn:E; cbn [negb] in H
  end.

(** Settle [located], [daily_first] or [fetched] in a concrete world by
    running the reads. *)
Ltac by_reading :=
  repeat match goal with
         | |- fetched _ _ _ _ _ _ _ => unfold fetched
         | |- located _ _ _ _ _ => unfold located
         | |- daily_first _ _ _ => unfold daily_first
         | |- exists _, _ => eexists
         | |- _ /\ _ => split
         | |- _ = _ => reflexivity
         end.

(* ===================================================================== *)
(** ** The two lookups, stage by stage                                    *)
(* ===================================================================== *)

Section Stages.
Context {RT : Runtime}.
Variable W : World.

Lemma located_getitem_results name location lat lon :
  located W name location lat lon ->
  exists geo_res results,
    get_json W (geo_url name) = Returns geo_res /\
    py_get geo_res "results" VNone = Returns results /\
    truthy results = true /\
    py_getitem geo_res (VStr "results") = Returns results /\
    py_getitem results (VInt 0) = Returns location.
Proof.
  intros (geo_res & results & Hgeo & Hget & Ht & Hloc & _).
  exists geo_res, results. repeat split; auto using py_get_then_getitem.
Qed.

Lemma fetched_functional name l1 w1 a1 b1 c1 l2 w2 a2 b2 c2 :
  fetched W name l1 w1 a1 b1 c1 -> fetched W name l2 w2 a2 b2 c2 ->
  l1 = l2 /\ w1 = w2 /\ a1 = a2 /\ b1 = b2 /\ c1 = c2.
Proof.
  intros (lat1 & lon1 & (g1 & r1 & G1 & R1 & _ & L1 & La1 & Lo1) & F1 & _ & A1 & B1 & C1)
         (lat2 & lon2 & (g2 & r2 & G2 & R2 & _ & L2 & La2 & Lo2) & F2 & _ & A2 & B2 & C2).
  assert (g1 = g2) by congruence; subst g2.
  assert (r1 = r2) by congruence; subst r2.
  assert (l1 = l2) by congruence; subst l2.
  assert (lat1 = lat2) by congruence; subst lat2.
  assert (lon1 = lon2) by congruence; subst lon2.
  assert (w1 = w2) by congruence; subst w2.
  destruct A1 as (d1 & x1 & D1 & X1 & A1), A2 as (d2 & x2 & D2 & X2 & A2).
  destruct B1 as (e1 & y1 & E1 & Y1 & B1), B2 as (e2 & y2 & E2 & Y2 & B2).
  destruct C1 as (f1 & z1 & F1' & Z1 & C1), C2 as (f2 & z2 & F2' & Z2 & C2).
  assert (d1 = d2) by congruence; subst d2.
  assert (e1 = d1) by congruence; subst e1.
  assert (e2 = d1) by congruence; subst e2.
  assert (f1 = d1) by congruence; subst f1.
  assert (f2 = d1) by congruence; subst f2.
  assert (x1 = x2) by congruence; subst x2.
  assert (y1 = y2) by congruence; subst y2.
  assert (z1 = z2) by congruence; subst z2.
  repeat split; congruence.
Qed.

(** *** [get_weather_data] *)

Lemma get_weather_data_body_fetched city location weather_res tmax tmin pp :
  fetched W (str_replace " " "%20" city) location weather_res tmax tmin pp ->
  get_weather_data_body W city
  = Returns (summary city (country_of location) tmax tmin pp).
Proof.
  intros (lat & lon & Hloc & Hw & Hin & Hmax & Hmin & Hpp).
  destruct (located_getitem_results _ _ _ _ Hloc)
    as (geo_res & results & Hgeo & Hget & Ht & Hres & Hl).
  destruct Hloc as (_ & _ & _ & _ & _ & _ & Hlat & Hlon).
  destruct Hmax as (daily & maxs & Hd & Hmaxs & Hmax).
  destruct Hmin as (daily' & mins & Hd' & Hmins & Hmin).
  destruct Hpp as (daily'' & probs & Hd'' & Hprobs & Hpp).
  assert (daily' = daily) by congruence; subst daily'.
  assert (daily'' = daily) by congruence; subst daily''.
  unfold get_weather_data_body.
  rewrite Hgeo; cbn [bind]. rewrite Hget; cbn [bind]. rewrite Ht; cbn [negb].
  rewrite Hres; cbn [bind]. rewrite Hl; cbn [bind].
  rewrite Hlat; cbn [bind]. rewrite Hlon; cbn [bind].
  rewrite Hw; cbn [bind]. rewrite Hin; cbn [bind negb].
  rewrite Hd; cbn [bind]. rewrite Hmaxs; cbn [bind]. rewrite Hmax; cbn [bind].
  rewrite Hmins; cbn [bind]. rewrite Hmin; cbn [bind].
  rewrite Hprobs; cbn [bind]. rewrite Hpp; cbn [bind].
  rewrite (py_get_country _ _ _ Hlat); cbn [bind]. reflexivity.
Qed.

Lemma get_weather_data_body_inv city v :
  get_weather_data_body W city = Returns v ->
  v = VNone \/
  exists location weather_res tmax tmin pp,
    fetched W (str_replace " " "%20" city) location weather_res tmax tmin pp /\
    v = summary city (country_of location) tmax tmin pp.
Proof.
  unfold get_weather_data_body. intros H.
  bind_inv H geo_res Hgeo. bind_inv H found Hget.
  guard_inv H Ht; [| left; congruence].
  bind_inv H results Hres.
  assert (results = found)
    by (rewrite (py_get_then_getitem _ _ _ Hget Ht) in Hres; congruence).
  subst results.
  bind_inv H location Hl. bind_inv H lat Hlat. bind_inv H lon Hlon.
  bind_inv H weather_res Hw. bind_inv H has_daily Hin.
  guard_inv H Hd; [| left; congruence].
  bind_inv H daily Hd1. bind_inv H maxs Hmaxs. bind_inv H tmax Hmax.
  bind_inv H daily' Hd2. bind_inv H mins Hmins. bind_inv H tmin Hmin.
  bind_inv H daily'' Hd3. bind_inv H probs Hprobs. bind_inv H pp Hpp.
  bind_inv H country Hc.
  rewrite (py_get_country _ _ _ Hlat) in Hc.
  right. exists location, weather_res, tmax, tmin, pp. split.
  - exists lat, lon. split; [exists geo_res, found; auto 10 |].
    subst has_daily.
    repeat split; auto; eexists _, _; eauto.
  - injection Hc as <-. injection H as <-. reflexivity.
Qed.

Lemma get_weather_data_returns city :
  get_weather_data W city = Returns VNone \/
  exists location weather_res tmax tmin pp,
    fetched W (str_replace " " "%20" city) location weather_res tmax tmin pp /\
    get_weather_data W city
    = Returns (summary city (country_of location) tmax tmin pp).
Proof.
  unfold get_weather_data.
  destruct (get_weather_data_body W city) as [v | e] eqn:E; cbn [try_except].
  - destruct (get_weather_data_body_inv _ _ E) as [-> | (l & w & a & b & c & F & ->)].
    + now left.
    + right. exists l, w, a, b, c. auto.
  - now left.
Qed.

Lemma get_weather_data_fetched city location weather_res tmax tmin pp :
  fetched W (str_replace " " "%20" city) location weather_res tmax tmin pp ->
  get_weather_data W city
  = Returns (summary city (country_of location) tmax tmin pp).
Proof.
  intros F. unfold get_weather_data.
  now rewrite (get_weather_data_body_fetched _ _ _ _ _ _ F).
Qed.

Lemma get_weather_data_unfetched city :
  (forall location weather_res tmax tmin pp,
     ~ fetched W (str_replace " " "%20" city) location weather_res tmax tmin pp) ->
  get_weather_data W city = Returns VNone.
Proof.
  intros N.
  destruct (get_weather_data_returns city)
    as [E | (l & w & a & b & c & F & _)]; [exact E |].
  destruct (N _ _ _ _ _ F).
Qed.

(** *** [get_weather] *)

Lemma get_weather_body_fetched city date location weather_res tmax tmin pp :
  fetched W city location weather_res tmax tmin pp ->
  get_weather_body W city date
  = Returns (sentence city (country_of location) tmax tmin pp).
Proof.
  intros (lat & lon & Hloc & Hw & Hin & Hmax & Hmin & Hpp).
  destruct (located_getitem_results _ _ _ _ Hloc)
    as (geo_res & results & Hgeo & Hget & Ht & Hres & Hl).
  destruct Hloc as (_ & _ & _ & _ & _ & _ & Hlat & Hlon).
  destruct Hmax as (daily & maxs & Hd & Hmaxs & Hmax).
  destruct Hmin as (daily' & mins & Hd' & Hmins & Hmin).
  destruct Hpp as (daily'' & probs & Hd'' & Hprobs & Hpp).
  assert (daily' = daily) by congruence; subst daily'.
  assert (daily'' = daily) by congruence; subst daily''.
  unfold get_weather_body.
  rewrite Hgeo; cbn [bind]. rewrite Hget; cbn [bind]. rewrite Ht; cbn [negb].
  rewrite Hres; cbn [bind]. rewrite Hl; cbn [bind].
  rewrite Hlat; cbn [bind]. rewrite Hlon; cbn [bind].
  rewrite Hw; cbn [bind]. rewrite Hin; cbn [bind negb].
  rewrite Hd; cbn [bind]. rewrite Hmaxs; cbn [bind]. rewrite Hmax; cbn [bind].
  rewrite Hmins; cbn [bind]. rewrite Hmin; cbn [bind].
  rewrite Hprobs; cbn [bind]. rewrite Hpp; cbn [bind].
  rewrite (py_get_country _ _ _ Hlat); cbn [bind]. reflexivity.
Qed.

Lemma get_weather_body_inv city date s :
  get_weather_body W city date = Returns s ->
  s = "Could not find location for " ++ city \/
  s = "Could not fetch weather data." \/
  exists location weather_res tmax tmin pp,
    fetched W city location weather_res tmax tmin pp /\
    s = sentence city (country_of location) tmax tmin pp.
Proof.
  unfold get_weather_body. intros H.
  bind_inv H geo_res Hgeo. bind_inv H found Hget.
  guard_inv H Ht; [| left; congruence].
  bind_inv H results Hres.
  assert (results = found)
    by (rewrite (py_get_then_getitem _ _ _ Hget Ht) in Hres; congruence).
  subst results.
  bind_inv H location Hl. bind_inv H lat Hlat. bind_inv H lon Hlon.
  bind_inv H weather_res Hw. bind_inv H has_daily Hin.
  guard_inv H Hd; [| right; left; congruence].
  bind_inv H daily Hd1. bind_inv H maxs Hmaxs. bind_inv H tmax Hmax.
  bind_inv H daily' Hd2. bind_inv H mins Hmins. bind_inv H tmin Hmin.
  bind_inv H daily'' Hd3. bind_inv H probs Hprobs. bind_inv H pp Hpp.
  bind_inv H country Hc.
  rewrite (py_get_country _ _ _ Hlat) in Hc.
  right; right. exists location, weather_res, tmax, tmin, pp. split.
  - exists lat, lon. split; [exists geo_res, found; auto 10 |].
    subst has_daily.
    repeat split; auto; eexists _, _; eauto.
  - injection Hc as <-. injection H as <-. reflexivity.
Qed.

End Stages.

(* ===================================================================== *)
(** ** GET /weather/{city}                                                *)
(* ===================================================================== *)

Section Endpoint.
Context {RT : Runtime}.



Lemma get_weather_endpoint_found W city v :
  get_weather_data W city = Returns v -> v <> VNone ->
  get_weather_endpoint W city = Returns v.
Proof.
  intros E N. unfold get_weather_endpoint. rewrite E. cbn [bind].
  destruct (get_weather_data_returns W city)
    as [E' | (l & w & a & b & c & _ & E')]; rewrite E in E'.
  - congruence.
  - injection E' as ->. reflexivity.
Qed.

Lemma get_weather_endpoint_not_found W city :
  get_weather_data W city = Returns VNone ->
  get_weather_endpoint W city = Raises (HTTPException 404 "City not found").
Proof.
  intros E. unfold get_weather_endpoint. rewrite E. reflexivity.
Qed.

Lemma get_weather_data_raised W city e :
  get_weather_data_body W city = Raises e ->
  get_weather_data W city = Returns VNone.
Proof. intros E. unfold get_weather_data. now rewrite E. Qed.


Lemma get_weather_data_geo_raised W city e :
  get_json W (geo_url (str_replace " " "%20" city)) = Raises e ->
  get_weather_data W city = Returns VNone.
Proof.
  intros G. apply get_weather_data_raised with (e := e).
  unfold get_weather_data_body. now rewrite G.
Qed.

Lemma serve_rendered (v : value) :
  json_compliant v = true -> serve (Returns v) = {| status := 200; body := v |}.
Proof. intros H. cbn [serve]. now rewrite H. Qed.



End Endpoint.



(* ===================================================================== *)
(** ** The lookup of main.py                                              *)
(* ===================================================================== *)

Section LookupFacts.
Context {RT : Runtime}.
Variable W : World.

Lemma located_functional name l1 lat1 lon1 l2 lat2 lon2 :
  located W name l1 lat1 lon1 -> located W name l2 lat2 lon2 ->
  l1 = l2 /\ lat1 = lat2 /\ lon1 = lon2.
Proof.
  intros (g1 & r1 & G1 & R1 & _ & L1 & La1 & Lo1)
         (g2 & r2 & G2 & R2 & _ & L2 & La2 & Lo2).
  assert (g1 = g2) by congruence; subst g2.
  assert (r1 = r2) by congruence; subst r2.
  assert (l1 = l2) by congruence; subst l2.
  repeat split; congruence.
Qed.

Lemma fetched_reads name l weather_res tmax tmin pp location lat lon :
  fetched W name l weather_res tmax tmin pp ->
  located W name location lat lon ->
  l = location /\ get_json W (weather_url lat lon) = Returns weather_res.
Proof.
  intros (lat' & lon' & L' & Hw & _) L.
  destruct (located_functional _ _ _ _ _ _ _ L L') as (-> & -> & ->).
  split; [reflexivity | exact Hw].
Qed.

Lemma fetched_daily_first name location weather_res tmax tmin pp key :
  fetched W name location weather_res tmax tmin pp ->
  In key daily_keys ->
  exists x, daily_first weather_res key x.
Proof.
  intros (_ & _ & _ & _ & _ & A & B & C) [<- | [<- | [<- | []]]]; eauto.
Qed.

Lemma get_weather_data_forecast_raised city location lat lon e :
  located W (str_replace " " "%20" city) location lat lon ->
  get_json W (weather_url lat lon) = Raises e ->
  get_weather_data W city = Returns VNone.
Proof.
  intros L Hw. apply get_weather_data_unfetched.
  intros l w a b c F.
  destruct (fetched_reads _ _ _ _ _ _ _ _ _ F L) as (_ & Hw').
  congruence.
Qed.

Lemma get_weather_data_no_daily city location lat lon weather_res :
  located W (str_replace " " "%20" city) location lat lon ->
  get_json W (weather_url lat lon) = Returns weather_res ->
  py_in "daily" weather_res = Returns false ->
  get_weather_data W city = Returns VNone.
Proof.
  intros L Hw Hin. apply get_weather_data_unfetched.
  intros l w a b c F.
  destruct (fetched_reads _ _ _ _ _ _ _ _ _ F L) as (_ & Hw').
  destruct F as (_ & _ & _ & _ & Hin' & _).
  congruence.
Qed.

Lemma get_weather_data_empty_array city location lat lon weather_res daily key :
  located W (str_replace " " "%20" city) location lat lon ->
  get_json W (weather_url lat lon) = Returns weather_res ->
  py_getitem weather_res (VStr "daily") = Returns daily ->
  In key daily_keys ->
  py_getitem daily (VStr key) = Returns (VList []) ->
  get_weather_data W city = Returns VNone.
Proof.
  intros L Hw Hd Hk He. apply get_weather_data_unfetched.
  intros l w a b c F.
  destruct (fetched_reads _ _ _ _ _ _ _ _ _ F L) as (_ & Hw').
  assert (w = weather_res) by congruence; subst w.
  destruct (fetched_daily_first _ _ _ _ _ _ _ F Hk) as (x & d & arr & D & A & X).
  assert (d = daily) by congruence; subst d.
  assert (arr = VList []) by congruence; subst arr.
  exact (py_getitem_empty _ _ X).
Qed.

(** C2.  [get_weather_data] never raises: it returns a value in every
    world.  It returns [None] whenever something is raised inside its body,
    in particular when a GET raises or a body fails to decode, at the
    geocoding stage or at the forecast stage; when the forecast reply has no
    ["daily"]; and when one of the three daily arrays is empty, the
    [IndexError] of the access at index 0 being caught like any other. *)
Theorem get_weather_data_total (city : string) :
  (exists v, get_weather_data W city = Returns v) /\
  (forall e,
     get_weather_data_body W city = Raises e ->
     get_weather_data W city = Returns VNone) /\
  (forall e,
     get_json W (geo_url (str_replace " " "%20" city)) = Raises e ->
     get_weather_data W city = Returns VNone) /\
  (forall location lat lon,
     located W (str_replace " " "%20" city) location lat lon ->
     (forall e,
        get_json W (weather_url lat lon) = Raises e ->
        get_weather_data W city = Returns VNone) /\
     (forall weather_res,
        get_json W (weather_url lat lon) = Returns weather_res ->
        (py_in "daily" weather_res = Returns false ->
         get_weather_data W city = Returns VNone) /\
        (forall daily key,
           py_getitem weather_res (VStr "daily") = Returns daily ->
           In key daily_keys ->
           py_getitem daily (VStr key) = Returns (VList []) ->
           get_weather_data W city = Returns VNone))).
Proof.
  split; [| split; [| split]].
  - unfold get_weather_data.
    exact (try_except_total (get_weather_data_body W city) (fun _ => VNone)).
  - intros e. apply get_weather_data_raised.
  - intros e. apply get_weather_data_geo_raised.
  - intros location lat lon L. split.
    + intros e. apply get_weather_data_forecast_raised with (1 := L).
    + intros weather_res Hw. split.
      * apply get_weather_data_no_daily with (1 := L) (2 := Hw).
      * intros daily key.
        apply get_weather_data_empty_array with (1 := L) (2 := Hw).
Qed.

End LookupFacts.

Lemma get_weather_data_total_witness :
  @get_weather_data Sample.runtime Sample.offline_world "Paris" = Returns VNone /\
  @get_weather_data Sample.runtime Sample.refused_world "Paris" = Returns VNone /\
  @get_weather_data Sample.runtime Sample.empty_world "Paris" = Returns VNone.
Proof.
  split; [| split].
  - apply (proj1 (proj2 (proj2
            (@get_weather_data_total Sample.runtime Sample.offline_world "Paris")))
          Sample.unreachable).
    reflexivity.
  - apply (proj1 (proj2 (proj2 (proj2 (proj2
            (@get_weather_data_total Sample.runtime Sample.refused_world "Paris")))
            Sample.paris (VInt 49) (VInt 2) ltac:(by_reading)) _ eq_refl)).
    reflexivity.
  - apply (proj2 (proj2 (proj2 (proj2 (proj2
            (@get_weather_data_total Sample.runtime Sample.empty_world "Paris")))
            Sample.paris (VInt 49) (VInt 2) ltac:(by_reading)) _ eq_refl)
          _ "temperature_2m_min" eq_refl).
    + right; left; reflexivity.
    + reflexivity.
Defined.

Section Summary.
Context {RT : Runtime}.
Variable W : World.

(** C3, as amended.  The lookup returns either [None] or a [dict] with the
    five keys.  In the [dict], [city] is the caller's string, [country] is
    the ["country"] of the geocoder's first result, or the empty string
    when that result has none, and [temp_max], [temp_min], [precip_prob]
    are element 0 of the three daily arrays.  It returns [None] whenever
    the reads do not all go through: no first result, no coordinates, no
    forecast, no ["daily"], or no element 0 in one of the arrays. *)
Theorem get_weather_data_summary_or_none (city : string) :
  (get_weather_data W city = Returns VNone /\
   forall location weather_res tmax tmin pp,
     ~ fetched W (str_replace " " "%20" city) location weather_res tmax tmin pp)
  \/
  (exists location weather_res tmax tmin pp,
     fetched W (str_replace " " "%20" city) location weather_res tmax tmin pp /\
     get_weather_data W city
     = Returns (VDict [("city", VStr city);
                       ("country", country_of location);
                       ("temp_max", tmax);
                       ("temp_min", tmin);
                       ("precip_prob", pp)])).
Proof.
  destruct (get_weather_data_returns W city)
    as [E | (l & w & a & b & c & F & E)].
  - left. split; [exact E |].
    intros l w a b c F.
    rewrite (get_weather_data_fetched _ _ _ _ _ _ _ F) in E. discriminate E.
  - right. exists l, w, a, b, c. split; [exact F | exact E].
Qed.

(** C4.  A summary returned by the lookup carries, under [temp_max],
    [temp_min] and [precip_prob], exactly element 0 of the forecast's
    daily [temperature_2m_max], [temperature_2m_min] and
    [precipitation_probability_max]; and whatever those three elements
    are, in whatever order their values stand, the lookup returns them
    as they are.  For an array that is a list, element 0 is its head. *)
Theorem get_weather_data_pass_through (city : string) :
  (forall v,
     get_weather_data W city = Returns v -> v <> VNone ->
     exists location weather_res tmax tmin pp,
       fetched W (str_replace " " "%20" city) location weather_res tmax tmin pp /\
       py_getitem v (VStr "temp_max") = Returns tmax /\
       py_getitem v (VStr "temp_min") = Returns tmin /\
       py_getitem v (VStr "precip_prob") = Returns pp) /\
  (forall location weather_res tmax tmin pp,
     fetched W (str_replace " " "%20" city) location weather_res tmax tmin pp ->
     exists v,
       get_weather_data W city = Returns v /\
       py_getitem v (VStr "temp_max") = Returns tmax /\
       py_getitem v (VStr "temp_min") = Returns tmin /\
       py_getitem v (VStr "precip_prob") = Returns pp) /\
  (forall weather_res key x daily l,
     daily_first weather_res key x ->
     py_getitem weather_res (VStr "daily") = Returns daily ->
     py_getitem daily (VStr key) = Returns (VList l) ->
     exists rest, l = x :: rest).
Proof.
  split; [| split].
  - intros v E N.
    destruct (get_weather_data_returns W city)
      as [E' | (l & w & a & b & c & F & E')]; rewrite E in E'.
    + congruence.
    + injection E' as ->. exists l, w, a, b, c.
      split; [exact F | repeat split].
  - intros l w a b c F. eexists.
    split; [exact (get_weather_data_fetched _ _ _ _ _ _ _ F) | repeat split].
  - intros w key x daily l (d & arr & D & A & X) D' A'.
    assert (d = daily) by congruence; subst d.
    assert (arr = VList l) by congruence; subst arr.
    now apply py_getitem_first.
Qed.

End Summary.

(** C3, as it was stated, fails where the geocoder's first result has no
    ["country"]: that piece of provider data is missing, and the lookup
    still returns a summary, its [country] filled with the empty string;
    its [city] is the caller's [Atlantis], not the provider's
    [Null Island]. *)
Lemma get_weather_data_missing_country_counterexample :
  located Sample.nowhere_world (str_replace " " "%20" "Atlantis")
    Sample.nowhere (VInt 0) (VInt 0) /\
  py_getitem Sample.nowhere (VStr "country") = Raises (KeyError (VStr "country")) /\
  py_getitem Sample.nowhere (VStr "name") = Returns (VStr "Null Island") /\
  @get_weather_data Sample.runtime Sample.nowhere_world "Atlantis"
  = Returns (VDict [("city", VStr "Atlantis");
                    ("country", VStr EmptyString);
                    ("temp_max", VInt 21);
                    ("temp_min", VInt 12);
                    ("precip_prob", VInt 30)]) /\
  @get_weather_data Sample.runtime Sample.nowhere_world "Atlantis"
  <> Returns VNone.
Proof.
  split; [by_reading |].
  split; [reflexivity |].
  split; [reflexivity |].
  split; [reflexivity | discriminate].
Qed.

(** C4 at work on a forecast whose first maximum, 3.5, lies below its
    first minimum, 8.25. *)
Lemma get_weather_data_pass_through_witness :
  PrimFloat.ltb 3.5 8.25 = true /\
  exists v,
    @get_weather_data Sample.runtime Sample.inverted_world "Paris" = Returns v /\
    py_getitem v (VStr "temp_max") = Returns (VFloat 3.5) /\
    py_getitem v (VStr "temp_min") = Returns (VFloat 8.25) /\
    py_getitem v (VStr "precip_prob") = Returns (VInt 30).
Proof.
  split; [reflexivity |].
  apply (proj1 (proj2
           (@get_weather_data_pass_through Sample.runtime Sample.inverted_world
              "Paris"))
         Sample.paris Sample.inverted).
  by_reading.
Defined.

(* ===================================================================== *)
(** ** The geocoding request                                              *)
(* ===================================================================== *)

Lemma prefix_empty (s : string) : prefix EmptyString s = true.
Proof. destruct s; reflexivity. Qed.

Lemma str_replace_space (s : string) :
  str_replace " " "%20" s = encode_spaces s.
Proof.
  unfold str_replace. induction s as [| c s IH]; [reflexivity |].
  cbn [replace_from encode_spaces prefix String.length Nat.sub].
  destruct (ascii_dec " " c) as [<- | N].
  - rewrite prefix_empty, IH. reflexivity.
  - destruct (Ascii.eqb_spec c " ") as [-> | _]; [contradiction N; reflexivity |].
    now rewrite IH.
Qed.

Lemma encode_spaces_no_space (s : string) :
  str_contains " " (encode_spaces s) = false.
Proof.
  induction s as [| c s IH]; [reflexivity |].
  cbn [encode_spaces]. destruct (Ascii.eqb_spec c " ") as [-> | N].
  - cbn. exact IH.
  - cbn [str_contains prefix]. rewrite IH.
    destruct (ascii_dec " " c) as [<- | _]; [contradiction N; reflexivity |].
    reflexivity.
Qed.

Section Requests.
Context {RT : Runtime}.

(** [get_weather_data] reads the world through the geocoding URL built from
    the encoded name, and through forecast URLs, and nowhere else. *)
Lemma get_weather_data_reads (W W' : World) (city : string) :
  requests_get W' (geo_url (encode_spaces city))
  = requests_get W (geo_url (encode_spaces city)) ->
  (forall lat lon,
     requests_get W' (weather_url lat lon) = requests_get W (weather_url lat lon)) ->
  get_weather_data W' city = get_weather_data W city.
Proof.
  intros G F. unfold get_weather_data. f_equal.
  unfold get_weather_data_body, get_json.
  rewrite str_replace_space, G.
  destruct (requests_get W _) as [r |]; cbn [bind]; [| reflexivity].
  destruct (json r) as [geo_res |]; cbn [bind]; [| reflexivity].
  destruct (py_get geo_res _ _) as [found |]; cbn [bind]; [| reflexivity].
  destruct (negb (truthy found)); [reflexivity |].
  destruct (py_getitem geo_res _) as [results |]; cbn [bind]; [| reflexivity].
  destruct (py_getitem results _) as [location |]; cbn [bind]; [| reflexivity].
  destruct (py_getitem location (VStr "latitude")) as [lat |]; cbn [bind];
    [| reflexivity].
  destruct (py_getitem location (VStr "longitude")) as [lon |]; cbn [bind];
    [| reflexivity].
  rewrite F. reflexivity.
Qed.


End Requests.

(* ===================================================================== *)
(** ** POST /travel_advice                                                *)
(* ===================================================================== *)

Section Advice.
Context {RT : Runtime}.
Variable W : World.

Lemma weather_info_summary city country tmax tmin pp :
  exists info, weather_info (summary city country tmax tmin pp) = Returns info.
Proof. eexists. reflexivity. Qed.

(** C6.  When the lookup for the destination returns a summary and the
    call to the model, on the prompt built from that summary, raises [e],
    [travel_advice] raises the HTTP error 500 whose detail is
    ["AI Agent error: "] followed by [str(e)]; the client receives status
    500, not 200. *)
Theorem travel_advice_ai_error (request : TravelRequest) (v : value) (e : exn) :
  get_weather_data W (destination request) = Returns v ->
  v <> VNone ->
  (forall info,
     weather_info v = Returns info ->
     generate_content W gemini_model (advice_prompt info) = Raises e) ->
  (exists info, weather_info v = Returns info) /\
  travel_advice W request
  = Raises (HTTPException 500 ("AI Agent error: " ++ str_exn e)) /\
  serve (travel_advice W request)
  = {| status := 500;
       body := VDict [("detail", VStr ("AI Agent error: " ++ str_exn e))] |} /\
  status (serve (travel_advice W request)) <> 200%Z.
Proof.
  intros E N G.
  destruct (get_weather_data_returns W (destination request))
    as [E' | (l & w & a & b & c & _ & E')]; rewrite E in E';
    [congruence | injection E' as ->].
  destruct (weather_info_summary (destination request) (country_of l) a b c)
    as (info & I).
  assert (T : travel_advice W request
              = Raises (HTTPException 500 ("AI Agent error: " ++ str_exn e))).
  { unfold travel_advice. rewrite E. cbn [bind].
    rewrite summary_truthy. cbn [negb]. rewrite I. cbn [bind].
    rewrite (G _ I). reflexivity. }
  split; [eauto |]. split; [exact T |]. rewrite T. cbn [serve status].
  split; [reflexivity | discriminate].
Qed.

End Advice.

(** C6 at work: the model answers the prompt for Paris with a quota
    error. *)
Lemma travel_advice_ai_error_witness :
  serve (@travel_advice Sample.runtime Sample.quota_world
           {| destination := "Paris" |})
  = {| status := 500;
       body := VDict [("detail",
                       VStr "AI Agent error: 429 RESOURCE_EXHAUSTED")] |}.
Proof.
  apply (proj1 (proj2 (proj2
           (@travel_advice_ai_error Sample.runtime Sample.quota_world
              {| destination := "Paris" |}
              (summary "Paris" (VStr "France") (VInt 21) (VInt 12) (VInt 30))
              Sample.quota eq_refl
              ltac:(discriminate) (fun _ _ => eq_refl))))).
Defined.

(* ===================================================================== *)
(** ** The agent tool                                                     *)
(* ===================================================================== *)

Section Tool.
Context {RT : Runtime}.
Variable W : World.

Lemma get_weather_fetched city date location weather_res tmax tmin pp :
  fetched W city location weather_res tmax tmin pp ->
  get_weather W city date
  = Returns (sentence city (country_of location) tmax tmin pp).
Proof.
  intros F. unfold get_weather.
  now rewrite (get_weather_body_fetched _ _ date _ _ _ _ _ F).
Qed.

Lemma get_weather_raised city date e :
  get_weather_body W city date = Raises e ->
  get_weather W city date = Returns ("Error fetching weather: " ++ str_exn e).
Proof. intros E. unfold get_weather. now rewrite E. Qed.

Lemma get_weather_no_results city date geo_res found :
  get_json W (geo_url city) = Returns geo_res ->
  py_get geo_res "results" VNone = Returns found ->
  truthy found = false ->
  get_weather W city date = Returns ("Could not find location for " ++ city).
Proof.
  intros G F T. unfold get_weather, get_weather_body.
  rewrite G; cbn [bind]. rewrite F; cbn [bind]. now rewrite T.
Qed.

Lemma get_weather_no_daily city date location lat lon weather_res :
  located W city location lat lon ->
  get_json W (weather_url lat lon) = Returns weather_res ->
  py_in "daily" weather_res = Returns false ->
  get_weather W city date = Returns "Could not fetch weather data.".
Proof.
  intros L Hw Hin.
  destruct (located_getitem_results _ _ _ _ _ L)
    as (geo_res & results & Hgeo & Hget & Ht & Hres & Hl).
  destruct L as (_ & _ & _ & _ & _ & _ & Hlat & Hlon).
  unfold get_weather, get_weather_body.
  rewrite Hgeo; cbn [bind]. rewrite Hget; cbn [bind]. rewrite Ht; cbn [negb].
  rewrite Hres; cbn [bind]. rewrite Hl; cbn [bind].
  rewrite Hlat; cbn [bind]. rewrite Hlon; cbn [bind].
  rewrite Hw; cbn [bind]. rewrite Hin. reflexivity.
Qed.

(** C8.  [get_weather] returns a string in every world and for every city
    and date, and that string is one of four: the sentence for an unknown
    location, the sentence for a forecast without ["daily"], the weather
    sentence, or ["Error fetching weather: "] followed by the message of the
    exception raised inside the body.  Geocoding without results gives the
    first, a forecast reply without ["daily"] the second, and any exception
    the last. *)
Theorem get_weather_always_returns (city date : string) :
  (exists s,
     get_weather W city date = Returns s /\
     (s = "Could not find location for " ++ city \/
      s = "Could not fetch weather data." \/
      (exists location weather_res tmax tmin pp,
         fetched W city location weather_res tmax tmin pp /\
         s = sentence city (country_of location) tmax tmin pp) \/
      (exists e,
         get_weather_body W city date = Raises e /\
         s = "Error fetching weather: " ++ str_exn e))) /\
  (forall geo_res found,
     get_json W (geo_url city) = Returns geo_res ->
     py_get geo_res "results" VNone = Returns found ->
     truthy found = false ->
     get_weather W city date = Returns ("Could not find location for " ++ city)) /\
  (forall location lat lon weather_res,
     located W city location lat lon ->
     get_json W (weather_url lat lon) = Returns weather_res ->
     py_in "daily" weather_res = Returns false ->
     get_weather W city date = Returns "Could not fetch weather data.") /\
  (forall e,
     get_weather_body W city date = Raises e ->
     get_weather W city date = Returns ("Error fetching weather: " ++ str_exn e)).
Proof.
  split; [| split; [| split]].
  - unfold get_weather.
    destruct (get_weather_body W city date) as [s | e] eqn:E; cbn [try_except].
    + exists s. split; [reflexivity |].
      destruct (get_weather_body_inv _ _ _ _ E) as [-> | [-> | H]]; auto.
    + eexists. split; [reflexivity |]. do 3 right. eauto.
  - intros geo_res found. apply get_weather_no_results.
  - intros location lat lon weather_res. apply get_weather_no_daily.
  - intros e. apply get_weather_raised.
Qed.

(** C9.  The date does not reach the result: for any two dates
    [get_weather] returns the same string; and when the reads go through,
    that string is the weather sentence over element 0 of the three daily
    arrays, whatever the date. *)
Theorem get_weather_ignores_date (city d1 d2 : string) :
  get_weather W city d1 = get_weather W city d2 /\
  (forall location weather_res tmax tmin pp,
     fetched W city location weather_res tmax tmin pp ->
     get_weather W city d1
     = Returns (sentence city (country_of location) tmax tmin pp) /\
     get_weather W city d2
     = Returns (sentence city (country_of location) tmax tmin pp)).
Proof.
  split; [reflexivity |].
  intros l w a b c F. split; apply get_weather_fetched with (1 := F).
Qed.

(** C10.  A summary returned by [get_weather_data] holds under [city] the
    caller's string as given, and under [country] the ["country"] of the
    geocoder's first result (the empty string if it has none); no other
    field of that result reaches the summary.  The weather sentence of
    [get_weather] is built from the caller's string and that same
    [country]. *)
Theorem lookup_keeps_caller_city (city : string) :
  (forall v,
     get_weather_data W city = Returns v -> v <> VNone ->
     py_getitem v (VStr "city") = Returns (VStr city) /\
     exists location weather_res tmax tmin pp,
       fetched W (str_replace " " "%20" city) location weather_res tmax tmin pp /\
       py_getitem v (VStr "country") = Returns (country_of location) /\
       v = VDict [("city", VStr city);
                  ("country", country_of location);
                  ("temp_max", tmax);
                  ("temp_min", tmin);
                  ("precip_prob", pp)]) /\
  (forall date location weather_res tmax tmin pp,
     fetched W city location weather_res tmax tmin pp ->
     get_weather W city date
     = Returns ("Weather in " ++ city ++ " (" ++ py_str (country_of location)
                ++ "): Max " ++ py_str tmax ++ "°C, Min " ++ py_str tmin
                ++ "°C, Rain chance: " ++ py_str pp ++ "%.")).
Proof.
  split.
  - intros v E N.
    destruct (get_weather_data_returns W city)
      as [E' | (l & w & a & b & c & F & E')]; rewrite E in E'.
    + congruence.
    + injection E' as ->. split; [reflexivity |].
      exists l, w, a, b, c. repeat split; exact F.
  - intros date l w a b c F. exact (get_weather_fetched _ date _ _ _ _ _ F).
Qed.

End Tool.

(** C8 at work: no results, no ["daily"], an empty array, no network. *)
Lemma get_weather_always_returns_witness :
  @get_weather Sample.runtime Sample.unknown_world "Atlantis" "Sunday"
  = Returns "Could not find location for Atlantis" /\
  @get_weather Sample.runtime Sample.refused_world "Paris" "Sunday"
  = Returns "Could not fetch weather data." /\
  @get_weather Sample.runtime Sample.empty_world "Paris" "Sunday"
  = Returns "Error fetching weather: list index out of range" /\
  @get_weather Sample.runtime Sample.offline_world "Paris" "Sunday"
  = Returns "Error fetching weather: Max retries exceeded".
Proof.
  split; [| split; [| split]].
  - apply (proj1 (proj2
             (@get_weather_always_returns Sample.runtime Sample.unknown_world
                "Atlantis" "Sunday"))
           (VDict [("generationtime_ms", VInt 1)]) VNone);
      reflexivity.
  - apply (proj1 (proj2 (proj2
             (@get_weather_always_returns Sample.runtime Sample.refused_world
                "Paris" "Sunday")))
           Sample.paris (VInt 49) (VInt 2) _ ltac:(by_reading) eq_refl).
    reflexivity.
  - apply (proj2 (proj2 (proj2
             (@get_weather_always_returns Sample.runtime Sample.empty_world
                "Paris" "Sunday")))
           (IndexError "list index out of range")).
    reflexivity.
  - apply (proj2 (proj2 (proj2
             (@get_weather_always_returns Sample.runtime Sample.offline_world
                "Paris" "Sunday")))
           Sample.unreachable).
    reflexivity.
Defined.

(** C9 at work: Sunday and Monday in Paris. *)
Lemma get_weather_ignores_date_witness :
  @get_weather Sample.runtime Sample.paris_world "Paris" "Sunday"
  = Returns "Weather in Paris (France): Max 21°C, Min 12°C, Rain chance: 30%." /\
  @get_weather Sample.runtime Sample.paris_world "Paris" "Monday"
  = Returns "Weather in Paris (France): Max 21°C, Min 12°C, Rain chance: 30%.".
Proof.
  apply (proj2
           (@get_weather_ignores_date Sample.runtime Sample.paris_world
              "Paris" "Sunday" "Monday")
         Sample.paris Sample.mild (VInt 21) (VInt 12) (VInt 30)).
  by_reading.
Defined.

(** C10 at work: the caller writes [paris], the geocoder's first result is
    named [Paris]. *)
Lemma lookup_keeps_caller_city_witness :
  py_getitem Sample.paris (VStr "name") = Returns (VStr "Paris") /\
  (py_getitem (summary "paris" (VStr "France") (VInt 21) (VInt 12) (VInt 30))
     (VStr "city") = Returns (VStr "paris") /\
   exists location weather_res tmax tmin pp,
     @fetched Sample.runtime Sample.paris_world (str_replace " " "%20" "paris")
       location weather_res tmax tmin pp /\
     py_getitem (summary "paris" (VStr "France") (VInt 21) (VInt 12) (VInt 30))
       (VStr "country") = Returns (country_of location) /\
     summary "paris" (VStr "France") (VInt 21) (VInt 12) (VInt 30)
     = VDict [("city", VStr "paris");
              ("country", country_of location);
              ("temp_max", tmax);
              ("temp_min", tmin);
              ("precip_prob", pp)]) /\
  @get_weather Sample.runtime Sample.paris_world "paris" "Sunday"
  = Returns "Weather in paris (France): Max 21°C, Min 12°C, Rain chance: 30%.".
Proof.
  split; [reflexivity | split].
  - apply (proj1
             (@lookup_keeps_caller_city Sample.runtime Sample.paris_world "paris")
           (summary "paris" (VStr "France") (VInt 21) (VInt 12) (VInt 30))
           eq_refl).
    discriminate.
  - apply (proj2
             (@lookup_keeps_caller_city Sample.runtime Sample.paris_world "paris")
           "Sunday" Sample.paris Sample.mild (VInt 21) (VInt 12) (VInt 30)).
    by_reading.
Defined.

(* ===================================================================== *)
(** ** The advice renderer                                                *)
(* ===================================================================== *)

Section Renderer.
#[local] Open Scope list_scope.

Lemma bold_step_at (pre : list Js.jsstring) (p : Js.jsstring)
  (post : list Js.jsstring) (acc : Js.jsstring) :
  Js.bold_step (pre ++ p :: post) acc (List.length pre)
  = match post with
    | [] => acc ++ p
    | _ :: _ =>
        (acc ++ p)
        ++ (if Nat.even (List.length pre) then Js.strong_open
            else Js.strong_close)
    end.
Proof.
  unfold Js.bold_step. rewrite nth_middle, length_app. cbn [List.length].
  destruct post as [| q post]; cbn [List.length].
  - replace (List.length pre + 1 - 1)%nat with (List.length pre) by lia.
    now rewrite Nat.ltb_irrefl.
  - assert (L : ((List.length pre <? List.length pre + S (S (List.length post)) - 1)
                 = true)%nat) by (apply Nat.ltb_lt; lia).
    now rewrite L.
Qed.

Lemma bold_fold (post pre : list Js.jsstring) (acc : Js.jsstring) :
  fold_left (Js.bold_step (pre ++ post))
            (seq (List.length pre) (List.length post)) acc
  = acc ++ Js.alternate_tags (List.length pre) post.
Proof.
  revert pre acc. induction post as [| p post IH]; intros pre acc.
  - cbn. now rewrite app_nil_r.
  - cbn [List.length seq fold_left]. rewrite bold_step_at.
    destruct post as [| q post]; [reflexivity |].
    specialize (IH (pre ++ [p])).
    rewrite <- app_assoc, length_app in IH. cbn [List.length app] in IH.
    replace (List.length pre + 1)%nat with (S (List.length pre)) in IH by lia.
    rewrite IH. cbn [Js.alternate_tags]. now rewrite <- !app_assoc.
Qed.

Lemma bold_line_alternate (parts : list Js.jsstring) :
  Js.bold_line parts = Js.alternate_tags 0 parts.
Proof. exact (bold_fold parts [] []). Qed.

(** C7.  On ["### Clothing\n* Bring a coat\n**Note:** stay warm"]
    [formatMarkdown] returns
    [<h3>Clothing</h3><li>Bring a coat</li><strong>Note:</strong> stay warm<br>]:
    the header from the first line, the one list item from the second, and
    from the third, split on [**] into the empty string, ["Note:"] and
    [" stay warm"], one
    opening and one closing tag around [Note:].  In general the bold branch
    joins the pieces of the split, putting after the piece of index [i] an
    opening tag when [i] is even and a closing tag when [i] is odd, and
    nothing after the last piece. *)
Theorem formatMarkdown_clothing_note :
  Js.formatMarkdown Js.clothing_note
  = Js.lit "<h3>Clothing</h3><li>Bring a coat</li><strong>Note:</strong> stay warm<br>" /\
  Js.split Js.clothing_note Js.newline
  = [Js.lit "### Clothing"; Js.lit "* Bring a coat"; Js.lit "**Note:** stay warm"] /\
  Js.format_line (Js.lit "### Clothing") = Js.lit "<h3>Clothing</h3>" /\
  Js.format_line (Js.lit "* Bring a coat") = Js.lit "<li>Bring a coat</li>" /\
  Js.split (Js.lit "**Note:** stay warm") (Js.lit "**")
  = [[]; Js.lit "Note:"; Js.lit " stay warm"] /\
  Js.format_line (Js.lit "**Note:** stay warm")
  = Js.lit "<strong>Note:</strong> stay warm<br>" /\
  Js.occurrences (Js.lit "<h3>Clothing</h3>")
    (Js.formatMarkdown Js.clothing_note) = 1 /\
  Js.occurrences (Js.lit "<li>") (Js.formatMarkdown Js.clothing_note) = 1 /\
  Js.occurrences (Js.lit "<li>Bring a coat</li>")
    (Js.formatMarkdown Js.clothing_note) = 1 /\
  Js.occurrences Js.strong_open (Js.formatMarkdown Js.clothing_note) = 1 /\
  Js.occurrences Js.strong_close (Js.formatMarkdown Js.clothing_note) = 1 /\
  Js.occurrences (Js.lit "<strong>Note:</strong>")
    (Js.formatMarkdown Js.clothing_note) = 1 /\
  (forall parts, Js.bold_line parts = Js.alternate_tags 0 parts) /\
  (forall line,
     Js.startsWith line (Js.lit "### ") = false ->
     Js.startsWith (Js.trim line) (Js.lit "* ") = false ->
     Js.startsWith (Js.trim line) (Js.lit "- ") = false ->
     Js.includes line (Js.lit "**") = true ->
     Js.format_line line
     = Js.alternate_tags 0 (Js.split line (Js.lit "**")) ++ Js.lit "<br>").
Proof.
  repeat (split; [vm_compute; reflexivity |]).
  split; [exact bold_line_alternate |].
  intros line H1 H2 H3 H4. unfold Js.format_line.
  now rewrite H1, H2, H3, H4, bold_line_alternate.
Qed.

End Renderer.

(** C7's general rule at work on a line with two bold pairs. *)
Lemma formatMarkdown_clothing_note_witness :
  Js.format_line (Js.lit "a **b** c **d** e")
  = Js.lit "a <strong>b</strong> c <strong>d</strong> e<br>".
Proof.
  refine (eq_trans
            (proj2 (proj2 (proj2 (proj2 (proj2 (proj2 (proj2 (proj2 (proj2
              (proj2 (proj2 (proj2 (proj2 formatMarkdown_clothing_note))))))))))))
               (Js.lit "a **b** c **d** e") eq_refl eq_refl eq_refl eq_refl) _).
  reflexivity.
Defined.

(* ===================================================================== *)
(** ** POST /travel_advice, all outcomes                                  *)
(* ===================================================================== *)

Section AdviceOutcomes.
Context {RT : Runtime}.
Variable W : World.

Lemma weather_info_of_summary city country tmax tmin pp :
  weather_info (summary city country tmax tmin pp)
  = Returns (summary_info city country tmax tmin pp).
Proof. reflexivity. Qed.

(** The three ways [travel_advice] can end. *)
Lemma travel_advice_cases (request : TravelRequest) :
  (get_weather_data W (destination request) = Returns VNone /\
   travel_advice W request
   = Raises (HTTPException 404 "Weather data not found for destination"))
  \/
  (exists location weather_res tmax tmin pp,
     fetched W (str_replace " " "%20" (destination request))
       location weather_res tmax tmin pp /\
     get_weather_data W (destination request)
     = Returns (summary (destination request) (country_of location) tmax tmin pp) /\
     ((exists e,
         generate_content W gemini_model
           (advice_prompt
              (summary_info (destination request) (country_of location)
                 tmax tmin pp)) = Raises e /\
         travel_advice W request
         = Raises (HTTPException 500 ("AI Agent error: " ++ str_exn e)))
      \/
      (exists r,
         generate_content W gemini_model
           (advice_prompt
              (summary_info (destination request) (country_of location)
                 tmax tmin pp)) = Returns r /\
         travel_advice W request
         = Returns (VDict [("advice", text r);
                           ("weather",
                            summary (destination request) (country_of location)
                              tmax tmin pp)])))).
Proof.
  destruct (get_weather_data_returns W (destination request))
    as [E | (l & w & a & b & c & F & E)].
  - left. split; [exact E |]. unfold travel_advice. now rewrite E.
  - right. exists l, w, a, b, c. split; [exact F |]. split; [exact E |].
    unfold travel_advice. rewrite E. cbn [bind].
    rewrite summary_truthy. cbn [negb].
    rewrite weather_info_of_summary. cbn [bind].
    destruct (generate_content W gemini_model _) as [r | e] eqn:G;
      cbn [bind try_except].
    + right. exists r. split; reflexivity.
    + left. exists e. split; reflexivity.
Qed.

End AdviceOutcomes.

Section AdviceReplies.
Context {RT : Runtime}.
Variable W : World.

Lemma get_weather_data_with_model G city :
  get_weather_data (with_model W G) city = get_weather_data W city.
Proof. apply get_weather_data_reads; reflexivity. Qed.

Lemma travel_advice_none (V : World) (request : TravelRequest) :
  get_weather_data V (destination request) = Returns VNone ->
  serve (travel_advice V request) = weather_not_found.
Proof. intros E. unfold travel_advice. now rewrite E. Qed.

Lemma serve_returns_status (v : value) :
  status (serve (Returns v)) = 200%Z \/ status (serve (Returns v)) = 500%Z.
Proof. cbn [serve]. destruct (json_compliant v); cbn; auto. Qed.

Lemma serve_returns_not_404 (v : value) (b : value) :
  serve (Returns v) <> {| status := 404; body := b |}.
Proof.
  intros H. apply (f_equal status) in H. cbn [status] in H.
  destruct (serve_returns_status v) as [S | S]; rewrite S in H; discriminate H.
Qed.

(** X1.  [POST /travel_advice] answers 404 with the detail
    ["Weather data not found for destination"] exactly when the lookup of
    the destination returns [None]; and then the answer is the same
    whatever the model would do: it is not consulted. *)
Theorem travel_advice_not_found (request : TravelRequest) :
  (serve (travel_advice W request) = weather_not_found
   <-> get_weather_data W (destination request) = Returns VNone) /\
  (get_weather_data W (destination request) = Returns VNone ->
   forall G, serve (travel_advice (with_model W G) request) = weather_not_found).
Proof.
  split; [split |].
  - intros H.
    destruct (travel_advice_cases W request)
      as [(E & _) | (l & w & a & b & c & _ & _ & [(e & _ & T) | (r & _ & T)])];
      [exact E | |]; rewrite T in H.
    + discriminate H.
    + destruct (serve_returns_not_404 _ _ H).
  - apply travel_advice_none.
  - intros E G. apply travel_advice_none.
    now rewrite get_weather_data_with_model.
Qed.


(** X3.  [travel_advice] ends in one of three ways and no other: the 404
    above, a 500 whose detail starts with ["AI Agent error: "], or a [dict]
    with exactly [advice] and [weather], the latter being what the lookup
    returned.  No other exception leaves the handler. *)
Theorem travel_advice_outcomes (request : TravelRequest) :
  travel_advice W request
  = Raises (HTTPException 404 "Weather data not found for destination") \/
  (exists e,
     travel_advice W request
     = Raises (HTTPException 500 ("AI Agent error: " ++ str_exn e))) \/
  (exists advice weather,
     travel_advice W request
     = Returns (VDict [("advice", advice); ("weather", weather)]) /\
     get_weather_data W (destination request) = Returns weather /\
     weather <> VNone).
Proof.
  destruct (travel_advice_cases W request)
    as [(_ & T) | (l & w & a & b & c & _ & E & [(e & _ & T) | (r & _ & T)])].
  - now left.
  - right; left. now exists e.
  - right; right. eexists _, _. split; [exact T |]. split; [exact E |].
    discriminate.
Qed.

(** X4.  The two endpoints agree on the weather, for a destination that
    the route of [GET /weather/{city}] binds: [travel_advice] answers its
    404 exactly when [GET /weather/{city}] answers its own for the same
    city, and the [weather] of a 200 from [travel_advice] is the body of
    the 200 from [GET /weather/{city}]. *)
Theorem travel_advice_agrees_with_endpoint (request : TravelRequest) :
  path_param (destination request) = true ->
  (serve (travel_advice W request) = weather_not_found
   <-> serve (get_weather_endpoint W (destination request)) = city_not_found) /\
  (forall advice weather,
     serve (travel_advice W request)
     = {| status := 200;
          body := VDict [("advice", advice); ("weather", weather)] |} ->
     serve (get_weather_endpoint W (destination request))
     = {| status := 200; body := weather |}).
Proof.
  intros _. split; [split |].
  - intros H.
    destruct (travel_advice_cases W request)
      as [(E & _) | (l & w & a & b & c & _ & _ & [(e & _ & T) | (r & _ & T)])].
    + now rewrite (get_weather_endpoint_not_found _ _ E).
    + rewrite T in H. discriminate H.
    + rewrite T in H. destruct (serve_returns_not_404 _ _ H).
  - intros H. apply travel_advice_none.
    destruct (get_weather_data_returns W (destination request))
      as [E | (l & w & a & b & c & _ & E)]; [exact E |].
    rewrite (get_weather_endpoint_found _ _ _ E) in H by discriminate.
    destruct (serve_returns_not_404 _ _ H).
  - intros advice weather H.
    destruct (travel_advice_cases W request)
      as [(_ & T) | (l & w & a & b & c & _ & E & [(e & _ & T) | (r & _ & T)])];
      rewrite T in H; try discriminate H.
    cbn [serve] in H.
    match type of H with
    | (if json_compliant ?x then _ else _) = _ =>
        destruct (json_compliant x) eqn:J; [| discriminate H]
    end.
    injection H as _ <-.
    rewrite (get_weather_endpoint_found _ _ _ E) by discriminate.
    apply serve_rendered.
    cbn [json_compliant forallb] in J.
    apply andb_prop in J. destruct J as (_ & J).
    apply andb_prop in J. now destruct J as (J & _).
Qed.

End AdviceReplies.

(** X1 at work: the geocoder knows no Atlantis, and a model that would
    fail changes nothing. *)
Lemma travel_advice_not_found_witness :
  serve (@travel_advice Sample.runtime
           (with_model Sample.unknown_world (fun _ _ => Raises Sample.quota))
           {| destination := "Atlantis" |})
  = weather_not_found.
Proof.
  apply (proj2 (@travel_advice_not_found Sample.runtime Sample.unknown_world
                  {| destination := "Atlantis" |})).
  reflexivity.
Defined.


(** X4 at work in Paris. *)
Lemma travel_advice_agrees_with_endpoint_witness :
  serve (@get_weather_endpoint Sample.runtime Sample.paris_world "Paris")
  = {| status := 200;
       body := summary "Paris" (VStr "France") (VInt 21) (VInt 12) (VInt 30) |}.
Proof.
  apply (proj2 (@travel_advice_agrees_with_endpoint Sample.runtime
                  Sample.paris_world {| destination := "Paris" |} eq_refl)
         (VStr "### Clothing")).
  reflexivity.
Defined.

(* ===================================================================== *)
(** ** What a lookup needs and what it reads                              *)
(* ===================================================================== *)

Lemma py_get_dict (v : value) (k : string) (d x : value) :
  py_get v k d = Returns x ->
  exists m, v = VDict m /\
            (dict_lookup k m = Some x \/ (dict_lookup k m = None /\ x = d)).
Proof.
  destruct v; cbn [py_get]; try discriminate.
  intros H. eexists. split; [reflexivity |].
  destruct (dict_lookup k d0); injection H as <-; auto.
Qed.

Lemma py_getitem_zero (arr x : value) :
  py_getitem arr (VInt 0) = Returns x ->
  (exists rest, arr = VList (x :: rest)) \/
  (exists s ch, arr = VStr s /\ x = VStr ch /\ s <> EmptyString).
Proof.
  destruct arr; cbn [py_getitem]; try discriminate.
  - intros H. right. exists s.
    destruct s as [| c s]; [discriminate H |].
    unfold seq_index in H. cbn [Z.leb Z.compare Z.to_nat nth_error] in H.
    destruct (utf8_chars (String c s)) as [| ch chs]; [discriminate H |].
    injection H as <-. exists ch. repeat split. discriminate.
  - intros H. left. apply py_getitem_first in H. destruct H as (rest & ->).
    now exists rest.
Qed.

Lemma py_getitem_head (x : value) (rest : list value) :
  py_getitem (VList (x :: rest)) (VInt 0) = Returns x.
Proof. reflexivity. Qed.

Section Shape.
Context {RT : Runtime}.

(** X5.  A summary is returned only from well-shaped replies: the
    geocoder's body is an object whose ["results"] is an array starting
    with an object that has ["latitude"] and ["longitude"]; the forecast's
    body, requested for those coordinates, is an object whose ["daily"] is
    an object; and under each of the three keys stands a non-empty array
    or a non-empty string. *)
Theorem get_weather_data_success_shape (W : World) (city : string) (v : value) :
  get_weather_data W city = Returns v ->
  v <> VNone ->
  exists g dl rest lat lon dw dd,
    get_json W (geo_url (str_replace " " "%20" city)) = Returns (VDict g) /\
    dict_lookup "results" g = Some (VList (VDict dl :: rest)) /\
    dict_lookup "latitude" dl = Some lat /\
    dict_lookup "longitude" dl = Some lon /\
    get_json W (weather_url lat lon) = Returns (VDict dw) /\
    dict_lookup "daily" dw = Some (VDict dd) /\
    forall key,
      In key daily_keys ->
      exists arr,
        dict_lookup key dd = Some arr /\
        ((exists x more, arr = VList (x :: more)) \/
         (exists s, arr = VStr s /\ s <> EmptyString)).
Proof.
  intros E N.
  destruct (get_weather_data_returns W city)
    as [E' | (l & w & a & b & c & F & E')]; rewrite E in E'; [congruence |].
  clear E' E N v.
  pose proof (fun key => fetched_daily_first W _ _ _ _ _ _ key F) as K.
  destruct F as (lat & lon & (geo_res & results & G & R & T & L & La & Lo)
                 & Hw & _ & (daily & maxs & D & _) & _).
  destruct (py_get_dict _ _ _ _ R) as (g & -> & [Rg | (_ & ->)]);
    [| discriminate T].
  destruct (py_getitem_key _ _ _ La) as (dl & -> & Lla).
  destruct (py_getitem_key _ _ _ Lo) as (dl' & Edl & Llo).
  injection Edl as <-.
  destruct (py_getitem_zero _ _ L) as [(rest & ->) | (s & ch & _ & Ech & _)];
    [| discriminate Ech].
  destruct (py_getitem_key _ _ _ D) as (dw & -> & Dd).
  exists g, dl, rest, lat, lon, dw.
  assert (exists dd, daily = VDict dd) as (dd & ->).
  { destruct (K "temperature_2m_max") as (x & d' & arr & D' & A & _);
      [now left |].
    assert (d' = daily) by congruence; subst d'.
    destruct (py_getitem_key _ _ _ A) as (dd & -> & _). now exists dd. }
  exists dd. repeat (split; [assumption |]).
  intros key Hk.
  destruct (K key Hk) as (x & d' & arr & D' & A & X).
  assert (d' = VDict dd) by congruence; subst d'.
  destruct (py_getitem_key _ _ _ A) as (dd' & Edd & Ak).
  injection Edd as <-.
  exists arr. split; [exact Ak |].
  destruct (py_getitem_zero _ _ X) as [(more & ->) | (s & ch & -> & _ & Ns)].
  - left. eauto.
  - right. eauto.
Qed.

(** X6.  Of the geocoder's reply the lookup reads the first result only,
    and of that result only ["latitude"], ["longitude"] and ["country"]:
    two worlds whose replies agree there, and whose forecast services
    agree, get the same answer from [get_weather_data], whatever else the
    replies hold. *)
Theorem get_weather_data_first_result_only (W W' : World) (city : string)
  (g g' d d' : list (string * value)) (rest rest' : list value) :
  get_json W (geo_url (str_replace " " "%20" city)) = Returns (VDict g) ->
  get_json W' (geo_url (str_replace " " "%20" city)) = Returns (VDict g') ->
  dict_lookup "results" g = Some (VList (VDict d :: rest)) ->
  dict_lookup "results" g' = Some (VList (VDict d' :: rest')) ->
  (forall k, In k ["latitude"; "longitude"; "country"] ->
             dict_lookup k d' = dict_lookup k d) ->
  (forall lat lon,
     get_json W' (weather_url lat lon) = get_json W (weather_url lat lon)) ->
  get_weather_data W' city = get_weather_data W city.
Proof.
  intros G G' R R' K F.
  unfold get_weather_data. f_equal. unfold get_weather_data_body.
  rewrite G, G'. cbn [bind py_get]. rewrite R, R'.
  cbn [bind truthy negb py_getitem]. rewrite R, R'. cbn [bind].
  rewrite !py_getitem_head. cbn [bind py_getitem py_get].
  rewrite (K "latitude"), (K "longitude"), (K "country") by (cbn; auto).
  destruct (dict_lookup "latitude" d) as [lat |]; cbn [bind]; [| reflexivity].
  destruct (dict_lookup "longitude" d) as [lon |]; cbn [bind]; [| reflexivity].
  rewrite F. reflexivity.
Qed.

End Shape.

(** X5 at work in Paris. *)
Lemma get_weather_data_success_shape_witness :
  exists g dl rest lat lon dw dd,
    get_json Sample.paris_world (geo_url (str_replace " " "%20" "Paris"))
    = Returns (VDict g) /\
    dict_lookup "results" g = Some (VList (VDict dl :: rest)) /\
    dict_lookup "latitude" dl = Some lat /\
    dict_lookup "longitude" dl = Some lon /\
    get_json Sample.paris_world (@weather_url Sample.runtime lat lon)
    = Returns (VDict dw) /\
    dict_lookup "daily" dw = Some (VDict dd) /\
    forall key,
      In key daily_keys ->
      exists arr,
        dict_lookup key dd = Some arr /\
        ((exists x more, arr = VList (x :: more)) \/
         (exists s, arr = VStr s /\ s <> EmptyString)).
Proof.
  apply (@get_weather_data_success_shape Sample.runtime Sample.paris_world
           "Paris"
           (summary "Paris" (VStr "France") (VInt 21) (VInt 12) (VInt 30))
           eq_refl).
  discriminate.
Defined.

(** X6 at work: a reply with the fields in another order, another name, a
    further field and a second result gives the summary of
    [Sample.paris_world]. *)
Lemma get_weather_data_first_result_only_witness :
  @get_weather_data Sample.runtime Sample.crowded_world "Paris"
  = @get_weather_data Sample.runtime Sample.paris_world "Paris".
Proof.
  apply (@get_weather_data_first_result_only Sample.runtime
           Sample.paris_world Sample.crowded_world "Paris"
           _ _ _ _ _ _ eq_refl eq_refl eq_refl eq_refl).
  - intros k [<- | [<- | [<- | []]]]; reflexivity.
  - intros lat lon. reflexivity.
Defined.

(* ===================================================================== *)
(** ** Names without spaces, and the two lookups side by side            *)
(* ===================================================================== *)

Lemma str_contains_space_cons (c : ascii) (s : string) :
  str_contains " " (String c s) = Ascii.eqb c " " || str_contains " " s.
Proof.
  cbn [str_contains prefix].
  destruct (ascii_dec " " c) as [<- | N].
  - now rewrite prefix_empty.
  - destruct (Ascii.eqb_spec c " ") as [-> | _]; [contradiction N |]; reflexivity.
Qed.

Lemma str_contains_space_app (a b : string) :
  str_contains " " (a ++ b) = str_contains " " a || str_contains " " b.
Proof.
  induction a as [| c a IH]; [reflexivity |].
  cbn [append]. rewrite !str_contains_space_cons, IH. now rewrite orb_assoc.
Qed.

Lemma encode_spaces_id (s : string) :
  str_contains " " s = false -> encode_spaces s = s.
Proof.
  induction s as [| c s IH]; [reflexivity |].
  rewrite str_contains_space_cons. intros H.
  apply orb_false_elim in H. destruct H as (Hc & Hs).
  cbn [encode_spaces]. rewrite Hc. now rewrite IH.
Qed.

Section SideBySide.
Context {RT : Runtime}.

(** X7.  The URL [get_weather_data] requests from the geocoder holds no
    space, whatever the city; a city without spaces is embedded as it
    is, no other byte being escaped; and the answer depends on the world
    through that URL and the forecast URLs only. *)
Theorem get_weather_data_geo_request (city : string) :
  str_contains " " (geo_url (str_replace " " "%20" city)) = false /\
  (str_contains " " city = false -> str_replace " " "%20" city = city) /\
  (forall W W',
     requests_get W' (geo_url (str_replace " " "%20" city))
     = requests_get W (geo_url (str_replace " " "%20" city)) ->
     (forall lat lon,
        requests_get W' (weather_url lat lon)
        = requests_get W (weather_url lat lon)) ->
     get_weather_data W' city = get_weather_data W city).
Proof.
  split; [| split].
  - unfold geo_url. rewrite !str_contains_space_app, str_replace_space.
    now rewrite encode_spaces_no_space.
  - intros H. rewrite str_replace_space. now apply encode_spaces_id.
  - intros W W'. rewrite str_replace_space. apply get_weather_data_reads.
Qed.

(** X8.  For a city without spaces the helper of main.py and the agent
    tool go the same way in the same world: either both complete the same
    reads, the one returning the summary and the other the weather
    sentence over the same country and the same three values, or the
    helper returns [None] and the tool one of its three other
    sentences. *)
Theorem lookups_agree_without_spaces (W : World) (city date : string) :
  str_contains " " city = false ->
  (exists location weather_res tmax tmin pp,
     fetched W city location weather_res tmax tmin pp /\
     get_weather_data W city
     = Returns (summary city (country_of location) tmax tmin pp) /\
     get_weather W city date
     = Returns (sentence city (country_of location) tmax tmin pp))
  \/
  (get_weather_data W city = Returns VNone /\
   (get_weather W city date = Returns ("Could not find location for " ++ city) \/
    get_weather W city date = Returns "Could not fetch weather data." \/
    exists e,
      get_weather_body W city date = Raises e /\
      get_weather W city date
      = Returns ("Error fetching weather: " ++ str_exn e))).
Proof.
  intros H.
  assert (Q : str_replace " " "%20" city = city)
    by (rewrite str_replace_space; now apply encode_spaces_id).
  destruct (get_weather_data_returns W city)
    as [E | (l & w & a & b & c & F & E)]; [| rewrite Q in F].
  - right. split; [exact E |].
    unfold get_weather.
    destruct (get_weather_body W city date) as [s | e] eqn:B; cbn [try_except].
    + destruct (get_weather_body_inv _ _ _ _ B)
        as [-> | [-> | (l & w & a & b & c & F & _)]]; auto.
      pose proof (get_weather_data_fetched W city l w a b c) as E'.
      rewrite Q in E'. rewrite (E' F) in E. discriminate E.
    + right; right. now exists e.
  - left. exists l, w, a, b, c. split; [exact F |]. split; [exact E |].
    unfold get_weather.
    now rewrite (get_weather_body_fetched _ _ date _ _ _ _ _ F).
Qed.

End SideBySide.

(** X7 at work: [Paris] goes into the URL as it is. *)
Lemma get_weather_data_geo_request_witness :
  str_replace " " "%20" "Paris" = "Paris".
Proof.
  apply (proj1 (proj2 (@get_weather_data_geo_request Sample.runtime "Paris"))).
  reflexivity.
Defined.

(** X8 at work in Paris. *)
Lemma lookups_agree_without_spaces_witness :
  (exists location weather_res tmax tmin pp,
     @fetched Sample.runtime Sample.paris_world "Paris"
       location weather_res tmax tmin pp /\
     @get_weather_data Sample.runtime Sample.paris_world "Paris"
     = Returns (summary "Paris" (country_of location) tmax tmin pp) /\
     @get_weather Sample.runtime Sample.paris_world "Paris" "Sunday"
     = Returns (@sentence Sample.runtime "Paris" (country_of location)
                  tmax tmin pp))
  \/
  (@get_weather_data Sample.runtime Sample.paris_world "Paris" = Returns VNone /\
   (@get_weather Sample.runtime Sample.paris_world "Paris" "Sunday"
    = Returns ("Could not find location for " ++ "Paris") \/
    @get_weather Sample.runtime Sample.paris_world "Paris" "Sunday"
    = Returns "Could not fetch weather data." \/
    exists e,
      @get_weather_body Sample.runtime Sample.paris_world "Paris" "Sunday"
      = Raises e /\
      @get_weather Sample.runtime Sample.paris_world "Paris" "Sunday"
      = Returns ("Error fetching weather: " ++ @str_exn Sample.runtime e))).
Proof.
  apply (@lookups_agree_without_spaces Sample.runtime Sample.paris_world
           "Paris" "Sunday").
  reflexivity.
Defined.

(* ===================================================================== *)
(** ** The renderer, line by line                                         *)
(* ===================================================================== *)

Section RendererLines.
#[local] Open Scope list_scope.

Lemma startsWith_unit (c x : N) (s : Js.jsstring) :
  Js.startsWith (x :: s) [c] = N.eqb c x.
Proof. cbn [Js.startsWith]. now destruct (N.eqb c x), s. Qed.

Lemma split_unit_nonempty (c : N) (cur s : Js.jsstring) :
  Js.split_from [c] 0 cur s <> [].
Proof.
  revert cur. induction s as [| x s IH]; intros cur; cbn [Js.split_from].
  - discriminate.
  - rewrite startsWith_unit. destruct (N.eqb c x); [discriminate | apply IH].
Qed.

Lemma split_unit_app (c : N) (a b cur : Js.jsstring) :
  Js.split_from [c] 0 cur (a ++ c :: b)
  = Js.split_from [c] 0 cur a ++ Js.split_from [c] 0 [] b.
Proof.
  revert cur. induction a as [| x a IH]; intros cur.
  - cbn [app Js.split_from]. rewrite startsWith_unit, N.eqb_refl. reflexivity.
  - cbn [app Js.split_from]. rewrite !startsWith_unit.
    destruct (N.eqb c x); cbn [List.length Nat.sub]; now rewrite IH.
Qed.

Lemma join_cons (sep p : Js.jsstring) (l : list Js.jsstring) :
  l <> [] -> Js.join sep (p :: l) = p ++ sep ++ Js.join sep l.
Proof. destruct l; [contradiction | reflexivity]. Qed.

Lemma split_unit_join (c : N) (s cur : Js.jsstring) :
  Js.join [c] (Js.split_from [c] 0 cur s) = rev cur ++ s.
Proof.
  revert cur. induction s as [| x s IH]; intros cur.
  - cbn. now rewrite app_nil_r.
  - cbn [Js.split_from]. rewrite startsWith_unit.
    destruct (N.eqb_spec c x) as [<- | _]; cbn [List.length Nat.sub].
    + rewrite join_cons by apply split_unit_nonempty.
      rewrite IH. reflexivity.
    + rewrite IH. cbn [rev]. now rewrite <- app_assoc.
Qed.

Lemma split_unit_pieces (c : N) (s cur : Js.jsstring) :
  ~ In c cur ->
  Forall (fun piece => ~ In c piece) (Js.split_from [c] 0 cur s).
Proof.
  revert cur. induction s as [| x s IH]; intros cur NI.
  - constructor; [| constructor]. now rewrite <- in_rev.
  - cbn [Js.split_from]. rewrite startsWith_unit.
    destruct (N.eqb_spec c x) as [<- | NE]; cbn [List.length Nat.sub].
    + constructor; [now rewrite <- in_rev | apply IH; intros []].
    + apply IH. intros [-> | H]; [now apply NE | now apply NI].
Qed.

Lemma fold_html (f : Js.jsstring -> Js.jsstring) (l : list Js.jsstring)
  (acc : Js.jsstring) :
  fold_left (fun html line => html ++ f line) l acc = acc ++ concat (map f l).
Proof.
  revert acc. induction l as [| x l IH]; intros acc; cbn.
  - now rewrite app_nil_r.
  - rewrite IH. now rewrite app_assoc.
Qed.

Lemma formatMarkdown_concat (text : Js.jsstring) :
  text <> [] ->
  Js.formatMarkdown text
  = concat (map Js.format_line (Js.split text Js.newline)).
Proof.
  intros NE. destruct text as [| c t]; [contradiction |].
  unfold Js.formatMarkdown. now rewrite fold_html.
Qed.

(** X9.  [formatMarkdown] works line by line.  The lines of a non-empty
    text are its pieces between newlines: joined by newlines they give the
    text back, and none holds a newline; the output is the outputs of the
    lines one after the other.  So the output for two non-empty texts put
    on consecutive lines is the two outputs in a row; and a newline at the
    very end, or at the very start, adds an empty paragraph. *)
Theorem formatMarkdown_line_by_line :
  (forall text,
     text <> [] ->
     Js.join Js.newline (Js.split text Js.newline) = text /\
     Forall (fun line => ~ In 10%N line) (Js.split text Js.newline) /\
     Js.formatMarkdown text
     = concat (map Js.format_line (Js.split text Js.newline))) /\
  (forall a b,
     a <> [] -> b <> [] ->
     Js.formatMarkdown (a ++ Js.newline ++ b)
     = Js.formatMarkdown a ++ Js.formatMarkdown b) /\
  (forall a,
     a <> [] ->
     Js.formatMarkdown (a ++ Js.newline)
     = Js.formatMarkdown a ++ Js.lit "<p></p>") /\
  (forall b,
     b <> [] ->
     Js.formatMarkdown (Js.newline ++ b)
     = Js.lit "<p></p>" ++ Js.formatMarkdown b).
Proof.
  split; [| split; [| split]].
  - intros text NE. split; [| split].
    + exact (split_unit_join 10%N text []).
    + apply split_unit_pieces. intros [].
    + now apply formatMarkdown_concat.
  - intros a b Na Nb.
    rewrite !formatMarkdown_concat by (try assumption; now destruct a).
    unfold Js.split, Js.newline. cbn [app].
    now rewrite split_unit_app, map_app, concat_app.
  - intros a Na.
    rewrite !formatMarkdown_concat by (try assumption; now destruct a).
    unfold Js.split, Js.newline.
    now rewrite split_unit_app, map_app, concat_app.
  - intros b Nb.
    rewrite !formatMarkdown_concat by (try assumption; discriminate).
    unfold Js.split, Js.newline.
    change ([10%N] ++ b) with ([] ++ 10%N :: b).
    now rewrite split_unit_app, map_app, concat_app.
Qed.

End RendererLines.

(** X9 at work: two lines, and a text that ends in a newline. *)
Lemma formatMarkdown_line_by_line_witness :
  Js.formatMarkdown (Js.lit "Pack light" ++ Js.newline ++ Js.lit "- Umbrella")%list
  = (Js.formatMarkdown (Js.lit "Pack light")
     ++ Js.formatMarkdown (Js.lit "- Umbrella"))%list /\
  Js.formatMarkdown (Js.lit "Pack light" ++ Js.newline)%list
  = Js.lit "Pack light<br><p></p>".
Proof.
  split.
  - apply (proj1 (proj2 formatMarkdown_line_by_line)); discriminate.
  - apply (proj1 (proj2 (proj2 formatMarkdown_line_by_line))
             (Js.lit "Pack light")).
    discriminate.
Defined.

(* ===================================================================== *)
(** ** The renderer, kinds of line                                        *)
(* ===================================================================== *)

Section RendererKinds.
#[local] Open Scope N_scope.
#[local] Open Scope list_scope.

Lemma startsWith_nil (s : Js.jsstring) : Js.startsWith s [] = true.
Proof. now destruct s. Qed.

Lemma startsWith_app (p s : Js.jsstring) : Js.startsWith (p ++ s) p = true.
Proof.
  induction p as [| c p IH]; [apply startsWith_nil |].
  cbn [app Js.startsWith]. now rewrite N.eqb_refl, IH.
Qed.

Lemma trimStart_blank_app (ws t : Js.jsstring) :
  Js.blank ws = true -> Js.trimStart (ws ++ t) = Js.trimStart t.
Proof.
  induction ws as [| x ws IH]; [reflexivity |].
  cbn [Js.blank forallb app Js.trimStart]. intros H.
  apply andb_prop in H. destruct H as (Hx & Hws).
  rewrite Hx. now apply IH.
Qed.

Lemma trimStart_keeps (c : N) (t : Js.jsstring) :
  Js.is_space c = false -> Js.trimStart (c :: t) = c :: t.
Proof. intros H. cbn [Js.trimStart]. now rewrite H. Qed.

Lemma trimStart_snoc (c : N) (v : Js.jsstring) :
  Js.is_space c = false -> exists u, Js.trimStart (v ++ [c]) = u ++ [c].
Proof.
  intros H. induction v as [| x v (u & IH)].
  - exists []. cbn [app]. now apply trimStart_keeps.
  - cbn [app Js.trimStart]. destruct (Js.is_space x).
    + now exists u.
    + now exists (x :: v).
Qed.

Lemma blank_rev (ws : Js.jsstring) : Js.blank (rev ws) = Js.blank ws.
Proof.
  unfold Js.blank. induction ws as [| x ws IH]; [reflexivity |].
  cbn [rev forallb]. rewrite forallb_app, IH. cbn [forallb].
  rewrite andb_true_r. apply andb_comm.
Qed.

Lemma trim_blank (ws : Js.jsstring) : Js.blank ws = true -> Js.trim ws = [].
Proof.
  intros H. unfold Js.trim.
  rewrite <- (app_nil_r ws), trimStart_blank_app by exact H. reflexivity.
Qed.

Lemma trim_head (ws t : Js.jsstring) (c : N) :
  Js.blank ws = true -> Js.is_space c = false ->
  exists u, Js.trim (ws ++ c :: t) = c :: u.
Proof.
  intros Hws Hc. unfold Js.trim.
  rewrite trimStart_blank_app, trimStart_keeps by assumption.
  cbn [rev]. destruct (trimStart_snoc c (rev t) Hc) as (u & ->).
  exists (rev u). now rewrite rev_app_distr.
Qed.

Lemma trim_core (ws1 ws2 mid : Js.jsstring) (c z : N) :
  Js.blank ws1 = true -> Js.blank ws2 = true ->
  Js.is_space c = false -> Js.is_space z = false ->
  Js.trim (ws1 ++ (c :: mid ++ [z]) ++ ws2) = c :: mid ++ [z].
Proof.
  intros H1 H2 Hc Hz. unfold Js.trim.
  rewrite trimStart_blank_app by assumption.
  cbn [app]. rewrite trimStart_keeps by assumption.
  change (c :: (mid ++ [z]) ++ ws2) with ((c :: mid ++ [z]) ++ ws2).
  rewrite rev_app_distr, trimStart_blank_app by now rewrite blank_rev.
  change (c :: mid ++ [z]) with ((c :: mid) ++ [z]).
  rewrite rev_app_distr. cbn [rev app].
  rewrite trimStart_keeps by assumption.
  cbn [rev]. rewrite rev_app_distr, rev_involutive. reflexivity.
Qed.

Lemma startsWith_after_blank (ws t p : Js.jsstring) (c m : N) :
  Js.blank ws = true -> Js.is_space c = false -> c <> m ->
  Js.startsWith (ws ++ m :: t) (c :: p) = false.
Proof.
  intros Hws Hc Hm. destruct ws as [| x ws]; cbn [app Js.startsWith].
  - destruct (N.eqb_spec c m); [contradiction | reflexivity].
  - cbn [Js.blank forallb] in Hws. apply andb_prop in Hws.
    destruct Hws as (Hx & _).
    destruct (N.eqb_spec c x) as [-> | _]; [congruence | reflexivity].
Qed.

Lemma startsWith_blank (ws p : Js.jsstring) (c : N) :
  Js.blank ws = true -> Js.is_space c = false ->
  Js.startsWith ws (c :: p) = false.
Proof.
  intros Hws Hc. destruct ws as [| x ws]; [reflexivity |].
  cbn [Js.blank forallb] in Hws. apply andb_prop in Hws.
  destruct Hws as (Hx & _). cbn [Js.startsWith].
  destruct (N.eqb_spec c x) as [-> | _]; [congruence | reflexivity].
Qed.

Lemma includes_blank (ws p : Js.jsstring) (c : N) :
  Js.blank ws = true -> Js.is_space c = false ->
  Js.includes ws (c :: p) = false.
Proof.
  intros Hws Hc. induction ws as [| x ws IH]; [reflexivity |].
  cbn [Js.includes]. rewrite startsWith_blank by assumption.
  cbn [Js.blank forallb] in Hws. apply andb_prop in Hws.
  now apply IH.
Qed.

(** X10.  A line made of white space only, the empty line among them,
    becomes an empty paragraph. *)
Theorem format_line_blank (line : Js.jsstring) :
  Js.blank line = true -> Js.format_line line = Js.lit "<p></p>".
Proof.
  intros H. unfold Js.format_line.
  change (Js.lit "### ") with [35; 35; 35; 32]%N.
  change (Js.lit "**") with [42; 42]%N.
  rewrite startsWith_blank, includes_blank, trim_blank by (exact H || reflexivity).
  reflexivity.
Qed.

(** X11.  A heading is recognised at the very start of a line only.  A
    line that starts with [### ] becomes a heading holding the rest of the
    line as it is, bold markers and bullets included.  With white space in
    front, the same line is no heading: it is rendered as an ordinary
    line, with its bold markers translated if it has any. *)
Theorem format_line_heading :
  (forall rest,
     Js.format_line (Js.lit "### " ++ rest)
     = Js.lit "<h3>" ++ rest ++ Js.lit "</h3>") /\
  (forall ws rest,
     ws <> [] -> Js.blank ws = true ->
     Js.format_line (ws ++ Js.lit "### " ++ rest)
     = (if Js.includes (ws ++ Js.lit "### " ++ rest) (Js.lit "**")
        then Js.bold_line (Js.split (ws ++ Js.lit "### " ++ rest) (Js.lit "**"))
        else ws ++ Js.lit "### " ++ rest)
       ++ Js.lit "<br>").
Proof.
  split.
  - intros rest. unfold Js.format_line. now rewrite startsWith_app.
  - intros ws rest NE Hws. unfold Js.format_line.
    change (Js.lit "### ") with [35; 35; 35; 32]%N. cbn [app].
    assert (S : Js.startsWith (ws ++ 35 :: 35 :: 35 :: 32 :: rest)
                  [35; 35; 35; 32]%N = false).
    { destruct ws as [| x ws]; [contradiction |].
      cbn [Js.blank forallb] in Hws. apply andb_prop in Hws.
      destruct Hws as (Hx & _). cbn [app Js.startsWith].
      destruct (N.eqb_spec 35 x) as [<- | _]; [discriminate Hx | reflexivity]. }
    rewrite S.
    destruct (trim_head ws (35 :: 35 :: 32 :: rest) 35%N Hws eq_refl)
      as (u & ->).
    cbn [Js.lit list_ascii_of_string map Js.startsWith N_of_ascii N.eqb].
    change (N_of_ascii "*") with 42%N. change (N_of_ascii "-") with 45%N.
    cbn [N.eqb Pos.eqb andb].
    now destruct (Js.includes _ _).
Qed.

(** X12.  A bullet is recognised after any white space: a line made of
    white space, [*] or [-], one space, a text that ends in a unit that is
    not white space, and white space again, becomes a list item holding
    that text, without the white space around the line. *)
Theorem format_line_bullet (ws1 ws2 b : Js.jsstring) (m z : N) :
  Js.blank ws1 = true -> Js.blank ws2 = true ->
  m = 42%N \/ m = 45%N ->
  Js.is_space z = false ->
  Js.format_line (ws1 ++ (m :: 32%N :: b ++ [z]) ++ ws2)
  = Js.lit "<li>" ++ (b ++ [z]) ++ Js.lit "</li>".
Proof.
  intros H1 H2 Hm Hz. unfold Js.format_line.
  assert (Sm : Js.is_space m = false) by (destruct Hm as [-> | ->]; reflexivity).
  change (Js.lit "### ") with [35; 35; 35; 32]%N.
  change ((m :: 32%N :: b ++ [z]) ++ ws2)
    with (m :: (32%N :: b ++ [z]) ++ ws2) at 1.
  rewrite startsWith_after_blank
    by (try assumption; try reflexivity; destruct Hm as [-> | ->]; discriminate).
  change (m :: 32%N :: b ++ [z]) with (m :: (32%N :: b) ++ [z]).
  rewrite trim_core by assumption.
  destruct Hm as [-> | ->].
  - change (Js.lit "* ") with [42; 32]%N.
    change (42%N :: (32%N :: b) ++ [z]) with ([42; 32]%N ++ (b ++ [z])).
    rewrite startsWith_app. reflexivity.
  - change (Js.lit "* ") with [42; 32]%N. change (Js.lit "- ") with [45; 32]%N.
    change (45%N :: (32%N :: b) ++ [z]) with ([45; 32]%N ++ (b ++ [z])).
    rewrite startsWith_app.
    cbn [app Js.startsWith N.eqb Pos.eqb andb]. reflexivity.
Qed.

End RendererKinds.

(** X10 at work: a tab and two spaces. *)
Lemma format_line_blank_witness :
  Js.format_line [9; 32; 32]%N = Js.lit "<p></p>".
Proof. apply format_line_blank. reflexivity. Defined.

(** X11 at work: a heading with a bold pair, at the start of the line and
    after two spaces. *)
Lemma format_line_heading_witness :
  Js.format_line (Js.lit "### **Shoes**") = Js.lit "<h3>**Shoes**</h3>" /\
  Js.format_line (Js.lit "  ### **Shoes**")
  = Js.lit "  ### <strong>Shoes</strong><br>".
Proof.
  split.
  - apply (proj1 format_line_heading (Js.lit "**Shoes**")).
  - refine (eq_trans
              (proj2 format_line_heading (Js.lit "  ") (Js.lit "**Shoes**")
                 _ eq_refl) _).
    + discriminate.
    + reflexivity.
Defined.

(** X12 at work: an indented bullet with a trailing space. *)
Lemma format_line_bullet_witness :
  Js.format_line (Js.lit "   - Bring a coat ") = Js.lit "<li>Bring a coat</li>".
Proof.
  apply (format_line_bullet (Js.lit "   ") (Js.lit " ") (Js.lit "Bring a coa")
           45%N 116%N); try reflexivity.
  now right.
Defined.

(* ===================================================================== *)
(** ** The environment after import of agent.py                           *)
(* ===================================================================== *)

Lemma del_if_set_spec (k : string) (env : environ) :
  exists env',
    del_if_set k env = Returns env' /\
    env' k = None /\
    forall k', k' <> k -> env' k' = env k'.
Proof.
  unfold del_if_set, env_in, env_del.
  destruct (env k) as [v |] eqn:E.
  - eexists. split; [reflexivity |]. split.
    + now rewrite String.eqb_refl.
    + intros k' N. destruct (String.eqb_spec k' k); [contradiction | reflexivity].
  - exists env. auto.
Qed.

(** X13.  The clean-up at the head of agent.py never raises, whether the
    three Vertex variables are set or not; after it none of
    [GOOGLE_CLOUD_PROJECT], [GOOGLE_CLOUD_LOCATION], [GOOGLE_CLOUD_REGION]
    is set, and every other variable has the value it had. *)
Theorem remove_vertex_config_spec (env : environ) :
  exists env',
    remove_vertex_config env = Returns env' /\
    (forall k, In k vertex_keys -> env' k = None) /\
    (forall k, ~ In k vertex_keys -> env' k = env k).
Proof.
  unfold remove_vertex_config.
  destruct (del_if_set_spec "GOOGLE_CLOUD_PROJECT" env) as (e1 & -> & N1 & K1).
  cbn [bind].
  destruct (del_if_set_spec "GOOGLE_CLOUD_LOCATION" e1) as (e2 & -> & N2 & K2).
  cbn [bind].
  destruct (del_if_set_spec "GOOGLE_CLOUD_REGION" e2) as (e3 & E3 & N3 & K3).
  exists e3. split; [exact E3 |]. split.
  - intros k [<- | [<- | [<- | []]]].
    + rewrite K3, K2 by discriminate. exact N1.
    + rewrite K3 by discriminate. exact N2.
    + exact N3.
  - intros k NI.
    assert (k <> "GOOGLE_CLOUD_PROJECT" /\ k <> "GOOGLE_CLOUD_LOCATION" /\
            k <> "GOOGLE_CLOUD_REGION") as (A & B & C).
    { repeat split; intros ->; apply NI; cbn; auto. }
    now rewrite K3, K2, K1.
Qed.

(* ===================================================================== *)
(** ** [getAdvice]                                                        *)
(* ===================================================================== *)

Section PageFacts.
Context {E : Page.Engine}.
#[local] Open Scope list_scope.

Lemma and_then_Normal {A B : Type} (c : Page.completion A)
  (k : A -> Page.completion B) (b : B) :
  Page.and_then c k = Page.Normal b ->
  exists a, c = Page.Normal a /\ k a = Page.Normal b.
Proof.
  destruct c as [a | m]; cbn [Page.and_then]; intros H; [eauto | discriminate].
Qed.

Lemma get_of_truthy (w : Page.jsvalue) (k : Js.jsstring) :
  Page.truthy w = true -> exists x, Page.get w k = Page.Normal x.
Proof.
  destruct w; cbn [Page.truthy Page.get]; try discriminate; eauto.
  destruct (find _ o); eauto.
Qed.

Lemma get_Normal_again (data x : Page.jsvalue) (k k' : Js.jsstring) :
  Page.get data k = Page.Normal x ->
  exists y, Page.get data k' = Page.Normal y.
Proof.
  destruct data; cbn [Page.get]; try discriminate; eauto.
  intros _. destruct (find (fun kv => Page.units_eqb (fst kv) k') o); eauto.
Qed.

Lemma header_of_Normal (w : Page.jsvalue) (h : Js.jsstring) :
  Page.header_of w = Page.Normal h ->
  exists tail,
    h = Js.lit "<div class=" ++ Page.q ++ Js.lit "weather-badge" ++ tail.
Proof.
  unfold Page.header_of. intros H.
  do 10 (apply and_then_Normal in H; destruct H as (? & _ & H)).
  injection H as <-. eexists. reflexivity.
Qed.

Lemma header_of_Throw (w : Page.jsvalue) (m : Js.jsstring) :
  Page.truthy w = true ->
  Page.header_of w = Page.Throw m ->
  exists k x,
    In k Page.header_keys /\ Page.get w k = Page.Normal x /\
    Page.to_string x = Page.Throw m.
Proof.
  intros T. unfold Page.header_of, Page.header_keys.
  destruct (get_of_truthy w (Js.lit "city") T) as (a & Ga). rewrite Ga.
  cbn [Page.and_then].
  destruct (Page.to_string a) eqn:Sa; cbn [Page.and_then];
    [| intros H; injection H as <-; exists (Js.lit "city"), a; cbn; auto].
  destruct (get_of_truthy w (Js.lit "country") T) as (b & Gb). rewrite Gb.
  cbn [Page.and_then].
  destruct (Page.to_string b) eqn:Sb; cbn [Page.and_then];
    [| intros H; injection H as <-; exists (Js.lit "country"), b; cbn; auto].
  destruct (get_of_truthy w (Js.lit "temp_max") T) as (c & Gc). rewrite Gc.
  cbn [Page.and_then].
  destruct (Page.to_string c) eqn:Sc; cbn [Page.and_then];
    [| intros H; injection H as <-; exists (Js.lit "temp_max"), c; cbn; auto 6].
  destruct (get_of_truthy w (Js.lit "temp_min") T) as (d & Gd). rewrite Gd.
  cbn [Page.and_then].
  destruct (Page.to_string d) eqn:Sd; cbn [Page.and_then];
    [| intros H; injection H as <-; exists (Js.lit "temp_min"), d; cbn; auto 7].
  destruct (get_of_truthy w (Js.lit "precip_prob") T) as (e & Ge). rewrite Ge.
  cbn [Page.and_then].
  destruct (Page.to_string e) eqn:Se; cbn [Page.and_then];
    [discriminate
    | intros H; injection H as <-; exists (Js.lit "precip_prob"), e; cbn;
      auto 8].
Qed.

(** What the [try] of [getAdvice] can assign. *)
Lemma advice_content_cases (S : Page.server) (dest : Js.jsstring)
  (c : Page.content) :
  Page.advice_content S dest = Page.Normal c ->
  (exists text, c = Page.InnerText (Js.lit "Error: " ++ text)) \/
  (exists html,
     c = Page.InnerHTML (Js.lit "<div style=" ++ html)) \/
  (exists tail,
     c = Page.InnerHTML (Js.lit "<div class=" ++ Page.q
                         ++ Js.lit "weather-badge" ++ tail)).
Proof.
  unfold Page.advice_content. intros H.
  apply and_then_Normal in H. destruct H as (resp & _ & H).
  apply and_then_Normal in H. destruct H as (data & _ & H).
  apply and_then_Normal in H. destruct H as (advice & _ & H).
  destruct (Page.truthy advice).
  - apply and_then_Normal in H. destruct H as (weather & _ & H).
    apply and_then_Normal in H. destruct H as (header & Hh & H).
    apply and_then_Normal in H. destruct H as (text & _ & H).
    apply and_then_Normal in H. destruct H as (html & _ & H).
    injection H as <-.
    destruct (Page.truthy weather) eqn:T.
    + apply and_then_Normal in Hh. destruct Hh as (w & Hw & Hh).
      right; right.
      destruct (header_of_Normal _ _ Hh) as (tail & ->).
      eexists. rewrite <- !app_assoc. reflexivity.
    + injection Hh as <-. right; left. eexists. cbn [app]. reflexivity.
  - apply and_then_Normal in H. destruct H as (detail & _ & H).
    apply and_then_Normal in H. destruct H as (shown & _ & H).
    injection H as <-. left. eexists. reflexivity.
Qed.

(** X14.  With an empty destination [getAdvice] leaves the page as it is.
    With any other, and whatever the server does, it ends with the button
    enabled again and labelled [Generate My Plan], the result area
    displayed, the input untouched, and the loading markup replaced by an
    error text or by the rendered advice; while the request is awaited the
    button is disabled. *)
Theorem getAdvice_restores_page (S : Page.server) (p : Page.page) :
  (Page.destination_value p = [] -> Page.getAdvice S p = p) /\
  (Page.destination_value p <> [] ->
   Page.btn_disabled (Page.waiting p) = true /\
   Page.btn_disabled (Page.getAdvice S p) = false /\
   Page.btn_innerText (Page.getAdvice S p) = Js.lit "Generate My Plan" /\
   Page.result_display (Page.getAdvice S p) = Js.lit "block" /\
   Page.destination_value (Page.getAdvice S p) = Page.destination_value p /\
   Page.result (Page.getAdvice S p) <> Page.InnerHTML Page.loading).
Proof.
  split.
  - intros H. unfold Page.getAdvice. now rewrite H.
  - intros NE. unfold Page.getAdvice.
    destruct (Page.destination_value p) as [| u dest] eqn:D; [contradiction |].
    cbn [Page.truthy negb Page.waiting Page.btn_disabled Page.btn_innerText
         Page.result_display Page.destination_value Page.result].
    repeat (split; [reflexivity |]). split; [exact D |].
    destruct (Page.advice_content S (u :: dest)) as [c | m] eqn:A;
      [| discriminate].
    destruct (advice_content_cases _ _ _ A)
      as [(t & ->) | [(h & ->) | (t & ->)]]; [discriminate | |].
    + intros H. apply (f_equal (fun c => match c with
                                         | Page.InnerHTML l => nth 5 l 0%N
                                         | Page.InnerText _ => 0%N
                                         end)) in H.
      discriminate H.
    + intros H. apply (f_equal (fun c => match c with
                                         | Page.InnerHTML l => nth 12 l 0%N
                                         | Page.InnerText _ => 0%N
                                         end)) in H.
      discriminate H.
Qed.

(** X15.  When the body of the server's answer has no truthy [advice],
    the page shows, as text, [Error: ] followed by the string of the
    body's [detail], or by [Could not get advice] when the [detail] is
    missing or falsy; a [detail] that has no string, an object with a
    ["toString"] of its own or an array holding one, makes the page show
    [Error connecting to server] instead.  The status of the answer plays
    no part. *)
Theorem getAdvice_shows_detail (S : Page.server) (p : Page.page)
  (resp : Page.response) (data advice detail : Page.jsvalue) :
  Page.destination_value p <> [] ->
  S (Page.destination_value p) = Page.Normal resp ->
  Page.json resp = Page.Normal data ->
  Page.get data (Js.lit "advice") = Page.Normal advice ->
  Page.truthy advice = false ->
  Page.get data (Js.lit "detail") = Page.Normal detail ->
  Page.result (Page.getAdvice S p)
  = (if Page.truthy detail
     then match Page.to_string detail with
          | Page.Normal shown => Page.InnerText (Js.lit "Error: " ++ shown)
          | Page.Throw _ => Page.InnerText (Js.lit "Error connecting to server")
          end
     else Page.InnerText (Js.lit "Error: Could not get advice")) /\
  (forall d, detail = Page.JStr d -> d <> [] ->
             Page.result (Page.getAdvice S p)
             = Page.InnerText (Js.lit "Error: " ++ d)).
Proof.
  intros NE HS HJ HA TA HD.
  assert (R : Page.result (Page.getAdvice S p)
              = (if Page.truthy detail
                 then match Page.to_string detail with
                      | Page.Normal shown =>
                          Page.InnerText (Js.lit "Error: " ++ shown)
                      | Page.Throw _ =>
                          Page.InnerText (Js.lit "Error connecting to server")
                      end
                 else Page.InnerText (Js.lit "Error: Could not get advice"))).
  { unfold Page.getAdvice.
    destruct (Page.destination_value p) as [| u dest] eqn:D; [contradiction |].
    cbn [Page.truthy negb Page.result]. unfold Page.advice_content.
    rewrite HS. cbn [Page.and_then]. rewrite HJ. cbn [Page.and_then].
    rewrite HA. cbn [Page.and_then]. rewrite TA, HD. cbn [Page.and_then].
    destruct (Page.truthy detail); [| reflexivity].
    now destruct (Page.to_string detail). }
  split; [exact R |].
  intros d -> Nd. rewrite R. now destruct d.
Qed.

(** X16.  When the body holds a non-empty string under [advice], the page
    shows as markup the rendering of that string by [formatMarkdown]
    inside the [margin-top] block, after the weather header when the body
    has a truthy [weather] and after nothing otherwise.  The header fails
    only when one of its five substitutions has no string, and then the
    page shows [Error connecting to server]. *)
Theorem getAdvice_renders_advice (S : Page.server) (p : Page.page)
  (resp : Page.response) (data weather : Page.jsvalue) (a : Js.jsstring) :
  Page.destination_value p <> [] ->
  S (Page.destination_value p) = Page.Normal resp ->
  Page.json resp = Page.Normal data ->
  Page.get data (Js.lit "advice") = Page.Normal (Page.JStr a) ->
  a <> [] ->
  Page.get data (Js.lit "weather") = Page.Normal weather ->
  Page.result (Page.getAdvice S p)
  = match (if Page.truthy weather then Page.header_of weather
           else Page.Normal []) with
    | Page.Normal header =>
        Page.InnerHTML
          (header
           ++ Js.lit "<div style=" ++ Page.q ++ Js.lit "margin-top:20px"
           ++ Page.q ++ Js.lit ">" ++ Js.formatMarkdown a ++ Js.lit "</div>")
    | Page.Throw _ => Page.InnerText (Js.lit "Error connecting to server")
    end /\
  (Page.truthy weather = true ->
   forall m,
     Page.header_of weather = Page.Throw m ->
     exists k x,
       In k Page.header_keys /\ Page.get weather k = Page.Normal x /\
       Page.to_string x = Page.Throw m).
Proof.
  intros NE HS HJ HA Na HW. split.
  - unfold Page.getAdvice.
    destruct (Page.destination_value p) as [| u dest] eqn:D; [contradiction |].
    cbn [Page.truthy negb Page.result]. unfold Page.advice_content.
    rewrite HS. cbn [Page.and_then]. rewrite HJ. cbn [Page.and_then].
    rewrite HA. cbn [Page.and_then].
    assert (Ta : Page.truthy (Page.JStr a) = true) by now destruct a.
    rewrite Ta, HW. cbn [Page.and_then].
    unfold Page.formatMarkdown_of. rewrite Ta. cbn [negb].
    destruct (if Page.truthy weather then Page.header_of weather
              else Page.Normal []); reflexivity.
  - intros T m. now apply header_of_Throw.
Qed.

(** X17.  The page shows [Error connecting to server] whenever the [try]
    throws: the request is rejected, the body does not decode, the body is
    [null], or its [advice] is truthy without being a string. *)
Theorem getAdvice_connection_error (S : Page.server) (p : Page.page) :
  Page.destination_value p <> [] ->
  (exists m, S (Page.destination_value p) = Page.Throw m) \/
  (exists resp m,
     S (Page.destination_value p) = Page.Normal resp /\
     Page.json resp = Page.Throw m) \/
  (exists resp,
     S (Page.destination_value p) = Page.Normal resp /\
     Page.json resp = Page.Normal Page.JNull) \/
  (exists resp data advice,
     S (Page.destination_value p) = Page.Normal resp /\
     Page.json resp = Page.Normal data /\
     Page.get data (Js.lit "advice") = Page.Normal advice /\
     Page.truthy advice = true /\
     forall s, advice <> Page.JStr s) ->
  Page.result (Page.getAdvice S p)
  = Page.InnerText (Js.lit "Error connecting to server").
Proof.
  intros NE H. unfold Page.getAdvice.
  destruct (Page.destination_value p) as [| u dest] eqn:D; [contradiction |].
  cbn [Page.truthy negb Page.result]. unfold Page.advice_content.
  destruct H as [(m & HS) | [(resp & m & HS & HJ) | [(resp & HS & HJ)
                | (resp & data & advice & HS & HJ & HA & TA & NS)]]];
    rewrite HS; cbn [Page.and_then]; [reflexivity | | |];
    rewrite HJ; cbn [Page.and_then Page.get]; [reflexivity | reflexivity |].
  rewrite HA. cbn [Page.and_then]. rewrite TA.
  destruct (get_Normal_again _ _ _ (Js.lit "weather") HA) as (w & HW).
  rewrite HW. cbn [Page.and_then].
  destruct (if Page.truthy w then Page.header_of w else Page.Normal [])
    as [h | m]; cbn [Page.and_then]; [| reflexivity].
  unfold Page.formatMarkdown_of. rewrite TA. cbn [negb].
  destruct advice; try reflexivity. now destruct (NS s).
Qed.

End PageFacts.

(** X14 at work: whatever the answer, here an error body, the page is
    usable again. *)
Lemma getAdvice_restores_page_witness :
  Page.btn_disabled (Page.waiting (Sample.blank_page (Js.lit "Paris"))) = true /\
  Page.btn_disabled
    (@Page.getAdvice Sample.engine
       (Sample.answering (Sample.detail_of "City not found"))
       (Sample.blank_page (Js.lit "Paris"))) = false /\
  Page.btn_innerText
    (@Page.getAdvice Sample.engine
       (Sample.answering (Sample.detail_of "City not found"))
       (Sample.blank_page (Js.lit "Paris"))) = Js.lit "Generate My Plan" /\
  Page.result_display
    (@Page.getAdvice Sample.engine
       (Sample.answering (Sample.detail_of "City not found"))
       (Sample.blank_page (Js.lit "Paris"))) = Js.lit "block" /\
  Page.destination_value
    (@Page.getAdvice Sample.engine
       (Sample.answering (Sample.detail_of "City not found"))
       (Sample.blank_page (Js.lit "Paris")))
  = Page.destination_value (Sample.blank_page (Js.lit "Paris")) /\
  Page.result
    (@Page.getAdvice Sample.engine
       (Sample.answering (Sample.detail_of "City not found"))
       (Sample.blank_page (Js.lit "Paris")))
  <> Page.InnerHTML Page.loading.
Proof.
  apply (proj2 (@getAdvice_restores_page Sample.engine
                  (Sample.answering (Sample.detail_of "City not found"))
                  (Sample.blank_page (Js.lit "Paris")))).
  discriminate.
Defined.

(** X15 at work: the 404 of [travel_advice] as the page shows it, and a
    [detail] that has no string. *)
Lemma getAdvice_shows_detail_witness :
  Page.result
    (@Page.getAdvice Sample.engine
       (Sample.answering
          (Sample.detail_of "Weather data not found for destination"))
       (Sample.blank_page (Js.lit "Atlantis")))
  = Page.InnerText (Js.lit "Error: Weather data not found for destination") /\
  Page.result
    (@Page.getAdvice Sample.engine
       (Sample.answering
          (Page.JObj [(Js.lit "detail", Sample.stringless)]))
       (Sample.blank_page (Js.lit "Atlantis")))
  = Page.InnerText (Js.lit "Error connecting to server").
Proof.
  split.
  - apply (proj2
             (@getAdvice_shows_detail Sample.engine
                (Sample.answering
                   (Sample.detail_of "Weather data not found for destination"))
                (Sample.blank_page (Js.lit "Atlantis"))
                {| Page.json :=
                     Page.Normal
                       (Sample.detail_of
                          "Weather data not found for destination") |}
                (Sample.detail_of "Weather data not found for destination")
                Page.JUndefined
                (Page.JStr (Js.lit "Weather data not found for destination"))
                ltac:(discriminate) eq_refl eq_refl eq_refl eq_refl eq_refl)
             _ eq_refl).
    discriminate.
  - apply (proj1
             (@getAdvice_shows_detail Sample.engine
                (Sample.answering
                   (Page.JObj [(Js.lit "detail", Sample.stringless)]))
                (Sample.blank_page (Js.lit "Atlantis"))
                {| Page.json :=
                     Page.Normal
                       (Page.JObj [(Js.lit "detail", Sample.stringless)]) |}
                (Page.JObj [(Js.lit "detail", Sample.stringless)])
                Page.JUndefined Sample.stringless
                ltac:(discriminate) eq_refl eq_refl eq_refl eq_refl eq_refl)).
Defined.

(** X16 at work: a heading as advice with the weather of Paris, and the
    same with a [country] that has no string. *)
Lemma getAdvice_renders_advice_witness :
  (exists header,
     @Page.header_of Sample.engine (Sample.weather_of (Page.JStr (Js.lit "France")))
     = Page.Normal header /\
     Page.result
       (@Page.getAdvice Sample.engine
          (Sample.answering
             (Sample.advice_with "### Clothing" (Page.JStr (Js.lit "France"))))
          (Sample.blank_page (Js.lit "Paris")))
     = Page.InnerHTML
         (header
          ++ Js.lit "<div style=" ++ Page.q ++ Js.lit "margin-top:20px"
          ++ Page.q ++ Js.lit ">" ++ Js.lit "<h3>Clothing</h3>"
          ++ Js.lit "</div>")%list) /\
  Page.result
    (@Page.getAdvice Sample.engine
       (Sample.answering (Sample.advice_with "### Clothing" Sample.stringless))
       (Sample.blank_page (Js.lit "Paris")))
  = Page.InnerText (Js.lit "Error connecting to server").
Proof.
  split.
  - eexists. split; [reflexivity |].
    apply (proj1
             (@getAdvice_renders_advice Sample.engine
                (Sample.answering
                   (Sample.advice_with "### Clothing"
                      (Page.JStr (Js.lit "France"))))
                (Sample.blank_page (Js.lit "Paris"))
                {| Page.json :=
                     Page.Normal
                       (Sample.advice_with "### Clothing"
                          (Page.JStr (Js.lit "France"))) |}
                (Sample.advice_with "### Clothing" (Page.JStr (Js.lit "France")))
                (Sample.weather_of (Page.JStr (Js.lit "France")))
                (Js.lit "### Clothing")
                ltac:(discriminate) eq_refl eq_refl eq_refl
                ltac:(discriminate) eq_refl)).
  - apply (proj1
             (@getAdvice_renders_advice Sample.engine
                (Sample.answering
                   (Sample.advice_with "### Clothing" Sample.stringless))
                (Sample.blank_page (Js.lit "Paris"))
                {| Page.json :=
                     Page.Normal
                       (Sample.advice_with "### Clothing" Sample.stringless) |}
                (Sample.advice_with "### Clothing" Sample.stringless)
                (Sample.weather_of Sample.stringless)
                (Js.lit "### Clothing")
                ltac:(discriminate) eq_refl eq_refl eq_refl
                ltac:(discriminate) eq_refl)).
Defined.

(** X17 at work: a body whose [advice] is the number 5. *)
Lemma getAdvice_connection_error_witness :
  Page.result
    (@Page.getAdvice Sample.engine
       (Sample.answering (Page.JObj [(Js.lit "advice", Page.JNum 5)]))
       (Sample.blank_page (Js.lit "Paris")))
  = Page.InnerText (Js.lit "Error connecting to server").
Proof.
  apply (@getAdvice_connection_error Sample.engine
           (Sample.answering (Page.JObj [(Js.lit "advice", Page.JNum 5)]))
           (Sample.blank_page (Js.lit "Paris"))).
  - discriminate.
  - do 3 right.
    exists {| Page.json :=
                Page.Normal (Page.JObj [(Js.lit "advice", Page.JNum 5)]) |},
           (Page.JObj [(Js.lit "advice", Page.JNum 5)]), (Page.JNum 5).
    repeat split; discriminate.
Defined.

(* ===================================================================== *)
(** ** Spaces in the geocoding request of the two lookups                 *)
(* ===================================================================== *)

Section Spaces.
Context {RT : Runtime}.




End Spaces.


